(** * fix_cai_mcp_bug.py: the CAI MCP patch script

    A shallow embedding of [src/fix_cai_mcp_bug.py].  The script looks for
    [cai/repl/commands/mcp.py] below the interpreter's site-package
    directories, keeps a [.backup] copy of it, and rewrites every
    [server.params.get(] into [getattr(server.params, ].

    Modelling choices.
    - Text is [string]; the characters are the units that [str.count] and
      [str.replace] compare, so a file's content is what [f.read()] returns
      and what [f.write] is given.
      Newline translation and decoding by [open] in text mode are below
      this level: they change no character of either literal.
    - The file system is a finite map from path strings to nodes (a regular
      file with its text, or a directory).  A path names one node: links
      and other aliases are not modelled.  Nodes carry no permissions, so
      the I/O errors that remain are those of opening a directory or a
      missing path.
    - Each [with open(...)] block of the script is one step: the file is
      read, or created and written, when the block is left.
    - The script's effects are threaded through a state-and-exception monad
      over a [world]: the file system and the log of what the run printed
      and wrote, in order. *)

From Stdlib Require Import Ascii.
From stdpp Require Import base gmap strings pretty.

#[local] Arguments String.append : simpl nomatch.

(** ** Python's [str] methods used by the script *)

Module Py.

(** [s.startswith(p)]. *)
Definition startswith (s p : string) : bool := String.prefix p s.
#[global] Arguments startswith : simpl never.

(** [s.endswith(suf)]. *)
Fixpoint endswith (s suf : string) : bool :=
  String.eqb s suf ||
  match s with
  | "" => false
  | String _ s' => endswith s' suf
  end.

(** [s * n]. *)
Fixpoint str_mul (s : string) (n : nat) : string :=
  match n with
  | 0 => ""
  | S n' => s +:+ str_mul s n'
  end.

(** The scan shared by [str.count] and [str.replace]: occurrences are
    found from the left and do not overlap.  After a match at the current
    character the scan resumes [len(sub)] characters further; [skip] is
    the number of characters of the last match still to be passed. *)
Fixpoint count_from (sub : string) (skip : nat) (s : string) : nat :=
  match s with
  | "" => 0
  | String _ s' =>
      match skip with
      | S k => count_from sub k s'
      | 0 =>
          if startswith s sub
          then S (count_from sub (String.length sub - 1) s')
          else count_from sub 0 s'
      end
  end.

(** [s.count(sub)]; the empty pattern matches between all characters. *)
Definition str_count (s sub : string) : nat :=
  match sub with
  | "" => S (String.length s)
  | _ => count_from sub 0 s
  end.

Fixpoint replace_from (old new : string) (skip : nat) (s : string) : string :=
  match s with
  | "" => ""
  | String c s' =>
      match skip with
      | S k => replace_from old new k s'
      | 0 =>
          if startswith s old
          then new +:+ replace_from old new (String.length old - 1) s'
          else String c (replace_from old new 0 s')
      end
  end.

Fixpoint interleave (new s : string) : string :=
  match s with
  | "" => new
  | String c s' => new +:+ String c (interleave new s')
  end.

(** [s.replace(old, new)]; the empty pattern inserts [new] around every
    character. *)
Definition str_replace (s old new : string) : string :=
  match old with
  | "" => interleave new s
  | _ => replace_from old new 0 s
  end.

(** [sub in s]. *)
Fixpoint contains (s sub : string) : bool :=
  startswith s sub ||
  match s with
  | "" => false
  | String _ s' => contains s' sub
  end.

(** Two strings clash when they differ at a position both have. *)
Fixpoint clash (a b : string) : bool :=
  match a, b with
  | String x a', String y b' => if Ascii.eqb x y then clash a' b' else true
  | _, _ => false
  end.

(** Every non-empty suffix of [w] clashes with [g]: no occurrence of [g]
    can start inside [w], whatever follows [w]. *)
Fixpoint tails_clash (w g : string) : bool :=
  match w with
  | "" => true
  | String _ w' => clash w g && tails_clash w' g
  end.

End Py.

Definition bad_literal : string := "server.params.get(".
Definition corrected_literal : string := "getattr(server.params, ".
Definition counted_literal : string := "getattr(server.params,".

(** ** [os.path] on a POSIX system *)

Module PosixPath.

Definition sep : string := "/".

(** One round of the loop of [os.path.join]: an absolute component
    restarts the path, otherwise it is appended after one separator. *)
Definition join_step (path b : string) : string :=
  if Py.startswith b sep then b
  else if bool_decide (path = "") || Py.endswith path sep then path +:+ b
  else path +:+ sep +:+ b.

(** [os.path.join(a, *p)]. *)
Definition join (a : string) (p : list string) : string :=
  foldl join_step a p.

(** [(p[:i], p[i:])] for [i = p.rfind('/') + 1]. *)
Fixpoint split_at_last_sep (p : string) : string * string :=
  match p with
  | "" => ("", "")
  | String c p' =>
      let (head, tail) := split_at_last_sep p' in
      match head with
      | String _ _ => (String c head, tail)
      | "" => if Ascii.eqb c "/"%char then (sep, tail) else ("", String c tail)
      end
  end.

(** [s.rstrip('/')]. *)
Fixpoint rstrip_sep (s : string) : string :=
  match s with
  | "" => ""
  | String c s' =>
      match rstrip_sep s' with
      | "" => if Ascii.eqb c "/"%char then "" else String c ""
      | r => String c r
      end
  end.

(** [os.path.basename(p)]. *)
Definition basename (p : string) : string := snd (split_at_last_sep p).

(** [os.path.dirname(p)]: trailing separators of the head are dropped
    unless the head consists of separators only. *)
Definition dirname (p : string) : string :=
  let head := fst (split_at_last_sep p) in
  match rstrip_sep head with
  | "" => head
  | stripped => stripped
  end.

End PosixPath.

(** ** The world the script runs in *)

(** What [os.path.exists] can find at a path. *)
Inductive node : Type :=
  | File (content : string)
  | Dir.

(** What a run leaves behind besides the final file system, in order. *)
Inductive event : Type :=
  | Printed (line : string)
  | Wrote (path content : string).

Record world : Type := World {
  fs : gmap string node;
  log : list event
}.

Inductive exn : Type :=
  | FileNotFoundError (path : string)
  | IsADirectoryError (path : string).

Inductive outcome (A : Type) : Type :=
  | Return (a : A)
  | Raise (e : exn).
Arguments Return {A} a.
Arguments Raise {A} e.

(** A statement sequence: it runs in a world and either returns a value or
    raises; what it did before raising stays done. *)
Definition M (A : Type) : Type := world -> outcome A * world.

#[global] Instance M_ret : MRet M := fun A a w => (Return a, w).
#[global] Instance M_bind : MBind M := fun A B f m w =>
  match m w with
  | (Return a, w') => f a w'
  | (Raise e, w') => (Raise e, w')
  end.

(** [print(line)]. *)
Definition print (line : string) : M unit := fun w =>
  (Return tt, World (fs w) (log w ++ [Printed line])).

(** [os.path.exists(path)]: true for files and for directories. *)
Definition os_path_exists (path : string) : M bool := fun w =>
  (Return (bool_decide (is_Some (fs w !! path))), w).

(** [with open(path, 'r') as f: f.read()]. *)
Definition read_file (path : string) : M string := fun w =>
  match fs w !! path with
  | Some (File content) => (Return content, w)
  | Some Dir => (Raise (IsADirectoryError path), w)
  | None => (Raise (FileNotFoundError path), w)
  end.

(** [with open(path, 'w') as f: f.write(content)]: the file is created or
    truncated, and holds [content] when the block is left. *)
Definition write_file (path content : string) : M unit := fun w =>
  match fs w !! path with
  | Some Dir => (Raise (IsADirectoryError path), w)
  | _ => (Return tt,
          World (<[path := File content]> (fs w)) (log w ++ [Wrote path content]))
  end.

(** What the script reads of the interpreter: [sys] and [site]. *)
Record sys_module : Type := Sys {
  real_prefix : option string;   (* absent unless set by an old virtualenv *)
  base_prefix : option string;
  prefix : string;
  version_major : nat;
  version_minor : nat
}.

Record environment : Type := Environment {
  sys : sys_module;
  getsitepackages : list string;
  getusersitepackages : string
}.

(** ** The script *)

Definition nl : string := String (Ascii.ascii_of_nat 10) "".

(** The sub-path of the target below a site-package directory. *)
Definition mcp_file_in (path : string) : string :=
  PosixPath.join path ["cai"; "repl"; "commands"; "mcp.py"].

(** The test guarding "Add current virtual environment if active". *)
Definition venv_active (s : sys_module) : bool :=
  bool_decide (is_Some (real_prefix s)) ||
  match base_prefix s with
  | Some base => bool_decide (base ≠ prefix s)
  | None => false
  end.

Definition venv_site_packages (s : sys_module) : string :=
  PosixPath.join (prefix s)
    ["lib";
     "python" +:+ pretty (version_major s) +:+ "." +:+ pretty (version_minor s);
     "site-packages"].

(** The list built in [find_cai_mcp_file] before its loop. *)
Definition search_paths (env : environment) : list string :=
  let search_paths := [] in
  let search_paths := search_paths ++ getsitepackages env in
  let search_paths := search_paths ++ [getusersitepackages env] in
  if venv_active (sys env)
  then search_paths ++ [venv_site_packages (sys env)]
  else search_paths.

(** The loop "Look for the MCP file". *)
Fixpoint look_for_mcp_file (paths : list string) : M (option string) :=
  match paths with
  | [] => mret None
  | path :: rest =>
      let potential_file := mcp_file_in path in
      found ← os_path_exists potential_file;
      if found : bool then mret (Some potential_file)
      else look_for_mcp_file rest
  end.

Definition find_cai_mcp_file (env : environment) : M (option string) :=
  look_for_mcp_file (search_paths env).

(** Truth value of the locator's result: [None] and [''] are false. *)
Definition truthy (file_path : option string) : bool :=
  match file_path with
  | None | Some "" => false
  | Some _ => true
  end.

(** "Create backup". *)
Definition create_backup (file_path : string) : M unit :=
  let backup_path := file_path +:+ ".backup" in
  backup_exists ← os_path_exists backup_path;
  if backup_exists : bool then mret tt
  else
    print "💾 Creating backup...";;
    original ← read_file file_path;
    write_file backup_path original;;
    print ("✅ Backup created: " +:+ backup_path).

(** "Verify the fix", from the recount of the re-read content on. *)
Definition report_fix (before_count : nat) (fixed_content : string) : M bool :=
  let after_count := Py.str_count fixed_content "server.params.get(" in
  let getattr_count := Py.str_count fixed_content "getattr(server.params," in
  print "✅ Fix applied successfully!";;
  print ("   • Before: " +:+ pretty before_count +:+ " server.params.get() calls");;
  print ("   • After: " +:+ pretty after_count +:+ " server.params.get() calls");;
  print ("   • Added: " +:+ pretty getattr_count +:+ " getattr(server.params, ...) calls");;
  if after_count =? 0 then
    print "🎉 All server.params.get() calls have been fixed!";;
    print (nl +:+ "📋 Next steps:");;
    print "   1. Start CAI: cai";;
    print "   2. Test the fix: /mcp add pentest-tools redteam_agent";;
    print "   3. Switch to agent: /agent redteam_agent";;
    print "   4. Start pentesting!";;
    mret true
  else
    print ("⚠️  Warning: " +:+ pretty after_count +:+ " server.params.get() calls still remain");;
    mret false.

Definition fix_cai_mcp_bug (env : environment) : M bool :=
  file_path ← find_cai_mcp_file env;
  print "🛡️  CAI MCP BUG FIX SCRIPT";;
  print (Py.str_mul "=" 40);;
  if negb (truthy file_path) then
    print "❌ CAI installation not found!";;
    print "   Please ensure CAI is installed in your current Python environment:";;
    print "   pip install cai-framework";;
    mret false
  else
    let file_path := default "" file_path in
    print ("✅ Found CAI installation: " +:+ PosixPath.dirname file_path);;
    print ("Target file: " +:+ PosixPath.basename file_path);;
    create_backup file_path;;
    print "🔍 Reading and analyzing file...";;
    content ← read_file file_path;
    let before_count := Py.str_count content "server.params.get(" in
    print ("Found " +:+ pretty before_count +:+ " server.params.get() calls to fix");;
    if before_count =? 0 then
      print "✅ No fixes needed - file appears to already be fixed";;
      mret true
    else
      print "🔧 Applying fixes...";;
      let content :=
        Py.str_replace content "server.params.get(" "getattr(server.params, " in
      write_file file_path content;;
      fixed_content ← read_file file_path;
      report_fix before_count fixed_content.

Definition main (env : environment) : M unit :=
  success ← fix_cai_mcp_bug env;
  if success : bool then
    print (nl +:+ Py.str_mul "=" 50);;
    print "🎯 SUMMARY";;
    print (Py.str_mul "=" 50);;
    print "The script fixed a CAI bug where server.params.get() method calls";;
    print "were failing because StdioServerParameters objects don't have a";;
    print "get() method. All calls were replaced with getattr() which works correctly.";;
    print (nl +:+ "Bug Details:");;
    print "- Error: 'StdioServerParameters' object has no attribute 'get'";;
    print "- Affects: /mcp add command when adding MCP tools to agents";;
    print "- Fix: Replace server.params.get() with getattr(server.params, ...)";;
    print (Py.str_mul "=" 50)
  else
    print (nl +:+ "❌ Fix failed - please check the error messages above").

(** [if __name__ == "__main__": main()]: the interpreter exits with status
    0 when [main] returns and with status 1 on an uncaught exception; the
    script itself never calls [sys.exit]. *)
Definition exit_status {A : Type} (o : outcome A) : Z :=
  match o with
  | Return _ => 0
  | Raise _ => 1
  end.

Definition run_script (env : environment) (w : world) : Z * world :=
  let (o, w') := main env w in (exit_status o, w').

(** ** What a run leaves to observe *)

(** The files written, with what was written, in order. *)
Definition writes (l : list event) : list (string * string) :=
  omap (fun e => match e with Wrote path content => Some (path, content) | _ => None end) l.

(** The lines printed, in order. *)
Definition stdout (l : list event) : list string :=
  omap (fun e => match e with Printed line => Some line | _ => None end) l.

(** ** An example installation *)

Definition sample_env : environment :=
  Environment (Sys None (Some "/usr") "/venv" 3 11)
    ["/usr/lib/python3/dist-packages"]
    "/home/u/.local/lib/python3.11/site-packages".

Definition sample_target : string :=
  "/venv/lib/python3.11/site-packages/cai/repl/commands/mcp.py".

Definition sample_world (content : string) : world :=
  World {[ sample_target := File content ]} [].

Definition three_calls : string :=
  "a = server.params.get('x'); b = server.params.get('y', 1); c = server.params.get('z')".

Definition three_fixed : string :=
  "a = getattr(server.params, 'x'); b = getattr(server.params, 'y', 1); c = getattr(server.params, 'z')".

#[global] Arguments Py.str_count : simpl never.
#[global] Arguments Py.str_replace : simpl never.
#[global] Arguments PosixPath.dirname : simpl never.
#[global] Arguments PosixPath.basename : simpl never.
#[global] Arguments pretty : simpl never.

(** * Properties of the text operations *)

Section text.

Import Py.

Lemma app_empty_r (s : string) : s +:+ "" = s.
Proof. induction s as [|c s IH]; simpl; [done | by rewrite IH]. Qed.

Lemma app_assoc_str (a b c : string) : (a +:+ b) +:+ c = a +:+ (b +:+ c).
Proof. induction a as [|x a IH]; simpl; [done | by rewrite IH]. Qed.

Lemma length_app_str (a b : string) :
  String.length (a +:+ b) = String.length a + String.length b.
Proof. induction a as [|x a IH]; simpl; [done | by rewrite IH]. Qed.

Lemma startswith_empty (s : string) : startswith s "" = true.
Proof. by destruct s. Qed.

Lemma startswith_cons (c d : ascii) (s p : string) :
  startswith (String c s) (String d p) = bool_decide (d = c) && startswith s p.
Proof.
  unfold startswith; simpl. destruct (ascii_dec d c) as [->|Hne].
  - by rewrite bool_decide_eq_true_2.
  - by rewrite bool_decide_eq_false_2.
Qed.

Lemma startswith_app (p x : string) : startswith (p +:+ x) p = true.
Proof.
  induction p as [|c p IH]; simpl; [apply startswith_empty|].
  by rewrite startswith_cons, bool_decide_eq_true_2, IH.
Qed.

Lemma startswith_inv (s p : string) :
  startswith s p = true -> exists x, s = p +:+ x.
Proof.
  revert s; induction p as [|d p IH]; intros s H.
  - by exists s.
  - destruct s as [|c s]; [done|].
    rewrite startswith_cons in H. apply andb_true_iff in H as [Hd Hp].
    apply bool_decide_eq_true_1 in Hd as ->.
    destruct (IH _ Hp) as [x ->]. by exists x.
Qed.

Lemma clash_sym (a b : string) : clash a b = clash b a.
Proof.
  revert b; induction a as [|x a IH]; intros [|y b]; simpl; try done.
  rewrite (Ascii.eqb_sym y x). by rewrite IH.
Qed.

(** A clash is decided inside the two strings: nothing appended to one of
    them makes the other a prefix. *)
Lemma clash_startswith (w g x : string) :
  clash w g = true -> startswith (g +:+ x) w = false.
Proof.
  revert g; induction w as [|a w IH]; intros [|b g] H; simpl in H; try done.
  change (String b g +:+ x) with (String b (g +:+ x)).
  rewrite startswith_cons. destruct (Ascii.eqb_spec a b) as [->|Hne].
  - by rewrite (IH _ H), andb_false_r.
  - by rewrite bool_decide_eq_false_2.
Qed.

Lemma tails_clash_tail (c : ascii) (w g : string) :
  tails_clash (String c w) g = true -> tails_clash w g = true.
Proof. simpl. by intros [_ ?]%andb_true_iff. Qed.

Lemma tails_clash_head (c : ascii) (w g : string) :
  tails_clash (String c w) g = true -> clash (String c w) g = true.
Proof. simpl. by intros [? _]%andb_true_iff. Qed.

(** *** The scan, one step at a time *)

Lemma count_from_skip (g w x : string) :
  count_from g (String.length w) (w +:+ x) = count_from g 0 x.
Proof. induction w as [|c w IH]; simpl; [by destruct x | done]. Qed.

Lemma replace_from_skip (old new w x : string) :
  replace_from old new (String.length w) (w +:+ x) = replace_from old new 0 x.
Proof. induction w as [|c w IH]; simpl; [by destruct x | done]. Qed.

Lemma count_from_match (g x : string) :
  g ≠ "" -> count_from g 0 (g +:+ x) = S (count_from g 0 x).
Proof.
  destruct g as [|c g]; [done|]; intros _.
  change (String c g +:+ x) with (String c (g +:+ x)).
  cbn [count_from]. change (String c (g +:+ x)) with (String c g +:+ x).
  rewrite startswith_app.
  replace (String.length (String c g) - 1) with (String.length g) by (simpl; lia).
  by rewrite count_from_skip.
Qed.

Lemma replace_from_match (old new x : string) :
  old ≠ "" ->
  replace_from old new 0 (old +:+ x) = new +:+ replace_from old new 0 x.
Proof.
  destruct old as [|c old]; [done|]; intros _.
  change (String c old +:+ x) with (String c (old +:+ x)).
  cbn [replace_from]. change (String c (old +:+ x)) with (String c old +:+ x).
  rewrite startswith_app.
  replace (String.length (String c old) - 1) with (String.length old) by (simpl; lia).
  by rewrite replace_from_skip.
Qed.

Lemma count_from_miss (g : string) (c : ascii) (s : string) :
  startswith (String c s) g = false ->
  count_from g 0 (String c s) = count_from g 0 s.
Proof. intros H. cbn [count_from]. by rewrite H. Qed.

Lemma replace_from_miss (old new : string) (c : ascii) (s : string) :
  startswith (String c s) old = false ->
  replace_from old new 0 (String c s) = String c (replace_from old new 0 s).
Proof. intros H. cbn [replace_from]. by rewrite H. Qed.

(** *** Passing over text in which the pattern cannot start *)

Lemma count_from_tails_clash (g w x : string) :
  tails_clash w g = true -> count_from g 0 (w +:+ x) = count_from g 0 x.
Proof.
  induction w as [|c w IH]; [done|]; intros H.
  change (String c w +:+ x) with (String c (w +:+ x)).
  rewrite count_from_miss.
  - apply IH, (tails_clash_tail _ _ _ H).
  - change (String c (w +:+ x)) with (String c w +:+ x).
    apply clash_startswith. rewrite clash_sym. apply (tails_clash_head _ _ _ H).
Qed.

Lemma replace_from_tails_clash (old new w x : string) :
  tails_clash w old = true ->
  replace_from old new 0 (w +:+ x) = w +:+ replace_from old new 0 x.
Proof.
  induction w as [|c w IH]; [done|]; intros H.
  change (String c w +:+ x) with (String c (w +:+ x)).
  rewrite replace_from_miss.
  - simpl. f_equal. apply IH, (tails_clash_tail _ _ _ H).
  - change (String c (w +:+ x)) with (String c w +:+ x).
    apply clash_startswith. rewrite clash_sym. apply (tails_clash_head _ _ _ H).
Qed.

Lemma contains_tails_clash (g w x : string) :
  tails_clash w g = true -> contains (w +:+ x) g = contains x g.
Proof.
  induction w as [|c w IH]; [done|]; intros H.
  change (String c w +:+ x) with (String c (w +:+ x)).
  cbn [contains]. rewrite (IH (tails_clash_tail _ _ _ H)).
  change (String c (w +:+ x)) with (String c w +:+ x).
  rewrite clash_startswith; [done|].
  rewrite clash_sym. apply (tails_clash_head _ _ _ H).
Qed.

End text.

(** ** Replacing a pattern that its replacement cannot rebuild *)

Section replace_theory.

Import Py.

Variables (o : ascii) (old' new : string).
Local Abbreviation old := (String o old').

(** A prefix [w] of the rewritten text in which [new] cannot start was
    already a prefix of the original. *)
Lemma startswith_replace_inv (w s : string) :
  tails_clash w new = true ->
  startswith (replace_from old new 0 s) w = true -> startswith s w = true.
Proof.
  revert s; induction w as [|a w IH]; intros s Hw H; [apply startswith_empty|].
  destruct s as [|c s]; [done|].
  destruct (startswith (String c s) old) eqn:Hold.
  - apply startswith_inv in Hold as [x Hx].
    rewrite Hx, replace_from_match in H by done.
    rewrite clash_startswith in H; [done | apply (tails_clash_head _ _ _ Hw)].
  - rewrite replace_from_miss in H by done.
    rewrite startswith_cons in H |- *.
    apply andb_true_iff in H as [-> H]. simpl.
    apply IH; [apply (tails_clash_tail _ _ _ Hw) | done].
Qed.

Lemma contains_false_count (g s : string) (k : nat) :
  contains s g = false -> count_from g k s = 0.
Proof.
  revert k; induction s as [|c s IH]; intros k H; [done|].
  cbn [contains] in H. apply orb_false_iff in H as [Hhd Htl].
  destruct k as [|k]; cbn [count_from]; [rewrite Hhd|]; by apply IH.
Qed.

Lemma count_zero_contains (g s : string) :
  g ≠ "" -> count_from g 0 s = 0 -> contains s g = false.
Proof.
  intros Hg. induction s as [|c s IH]; intros H.
  - by destruct g.
  - cbn [count_from] in H. cbn [contains].
    destruct (startswith (String c s) g); [done|]. by apply IH.
Qed.

Hypothesis new_in_old : tails_clash new old = true.
Hypothesis old_in_new : tails_clash old' new = true.

(** The pattern is nowhere in the rewritten text, wherever the scan is. *)
Lemma contains_replace_from (s : string) (k : nat) :
  contains (replace_from old new k s) old = false.
Proof.
  revert k; induction s as [|c s IH]; intros k; [done|].
  destruct k as [|k]; cbn [replace_from]; [|apply IH].
  destruct (startswith (String c s) old) eqn:Hold.
  - rewrite contains_tails_clash by done. apply IH.
  - cbn [contains]. rewrite IH, orb_false_r.
    rewrite startswith_cons in Hold |- *.
    destruct (bool_decide (o = c)); [simpl in *|done].
    destruct (startswith (replace_from old new 0 s) old') eqn:H; [|done].
    apply startswith_replace_inv in H; [congruence | done].
Qed.

(** An occurrence of [old] that starts before an inserted [new] ends before
    it. *)
Lemma startswith_before_new (w u v : string) :
  tails_clash w new = true ->
  startswith (u +:+ new +:+ v) w = startswith u w.
Proof.
  revert u; induction w as [|b w IH]; intros u Hw; [by rewrite !startswith_empty|].
  destruct u as [|c u].
  - change ("" +:+ new +:+ v) with (new +:+ v).
    by rewrite clash_startswith by apply (tails_clash_head _ _ _ Hw).
  - change (String c u +:+ new +:+ v) with (String c (u +:+ new +:+ v)).
    rewrite !startswith_cons, IH; [done | apply (tails_clash_tail _ _ _ Hw)].
Qed.

(** Around an inserted [new], [old] occurs only where it occurs in the
    text before or in the text after. *)
Lemma contains_around_new (u v : string) :
  contains (u +:+ new +:+ v) old = contains u old || contains v old.
Proof.
  induction u as [|c u IH].
  - change ("" +:+ new +:+ v) with (new +:+ v). by rewrite contains_tails_clash.
  - change (String c u +:+ new +:+ v) with (String c (u +:+ new +:+ v)).
    cbn [contains]. rewrite IH, !startswith_cons, startswith_before_new by done.
    by rewrite orb_assoc.
Qed.

Lemma count_replace_from (s : string) (k : nat) :
  count_from old 0 (replace_from old new k s) = 0.
Proof. apply contains_false_count, contains_replace_from. Qed.

(** *** Counting another pattern [g] before and after

    [g] heads [new] (with [rest] behind it), and neither can [g] start in
    an occurrence of [old] or in [rest], nor [old] or [new] in one of [g]. *)

Variables (a : ascii) (g' rest : string).
Local Abbreviation g := (String a g').

Hypothesis new_g : new = g +:+ rest.
Hypothesis rest_g : tails_clash rest g = true.
Hypothesis old_g : tails_clash old g = true.
Hypothesis g_old : tails_clash g old = true.
Hypothesis g_new : tails_clash g' new = true.

Lemma count_other_replace_from (s : string) :
  count_from g 0 (replace_from old new 0 s)
  = count_from g 0 s + count_from old 0 s.
Proof.
  remember (String.length s) as n eqn:Hn. revert s Hn.
  induction n as [n IH] using lt_wf_ind; intros s ->.
  destruct s as [|c s]; [done|].
  destruct (startswith (String c s) old) eqn:Hold.
  { apply startswith_inv in Hold as [x Hx]. rewrite Hx.
    assert (String.length x < String.length (String c s)) as Hlt
      by (rewrite Hx, length_app_str; simpl; lia).
    pose proof (IH _ Hlt x eq_refl) as IHx.
    rewrite replace_from_match, (count_from_match old) by done.
    rewrite (count_from_tails_clash g old) by done.
    set (R := replace_from old new 0 x) in *.
    rewrite new_g, app_assoc_str, count_from_match by done.
    rewrite (count_from_tails_clash g rest) by done.
    rewrite IHx. lia. }
  destruct (startswith (String c s) g) eqn:Hg.
  { apply startswith_inv in Hg as [x Hx]. rewrite Hx.
    rewrite replace_from_tails_clash by done.
    rewrite !count_from_match by done.
    rewrite (count_from_tails_clash old g) by done.
    assert (String.length x < String.length (String c s)) as Hlt
      by (rewrite Hx, length_app_str; simpl; lia).
    rewrite (IH _ Hlt x eq_refl). lia. }
  rewrite replace_from_miss, (count_from_miss old c s), (count_from_miss g c s) by done.
  rewrite count_from_miss.
  - apply (IH (String.length s)); [simpl; lia | done].
  - rewrite startswith_cons in Hg |- *.
    destruct (bool_decide (a = c)); [simpl in *|done].
    destruct (startswith (replace_from old new 0 s) g') eqn:H; [|done].
    apply startswith_replace_inv in H; [congruence | done].
Qed.

End replace_theory.

(** * Paths *)

Section paths.

Import Py.

Lemma endswith_refl (s : string) : endswith s s = true.
Proof. destruct s; cbn [endswith]; by rewrite String.eqb_refl. Qed.

Lemma endswith_app (z suf : string) : endswith (z +:+ suf) suf = true.
Proof.
  induction z as [|c z IH]; simpl; [apply endswith_refl|].
  rewrite IH. apply orb_true_r.
Qed.

(** The last round of [os.path.join] puts its component at the end. *)
Lemma join_step_relative (path b : string) :
  startswith b PosixPath.sep = false ->
  exists z, PosixPath.join_step path b = z +:+ b.
Proof.
  intros Hb. unfold PosixPath.join_step. rewrite Hb.
  destruct (_ || _); [by exists path|].
  exists (path +:+ PosixPath.sep). by rewrite app_assoc_str.
Qed.

Lemma mcp_file_in_form (path : string) :
  exists z, mcp_file_in path = z +:+ "mcp.py".
Proof. unfold mcp_file_in, PosixPath.join. simpl. by apply join_step_relative. Qed.

Lemma app_nonempty_r (z s : string) : s ≠ "" -> z +:+ s ≠ "".
Proof. destruct z; [done|]. simpl. done. Qed.

Lemma mcp_file_in_nonempty (path : string) : mcp_file_in path ≠ "".
Proof. destruct (mcp_file_in_form path) as [z ->]. by apply app_nonempty_r. Qed.

Lemma endswith_backup (z : string) : endswith (z +:+ ".backup") "y" = false.
Proof.
  induction z as [|c z IH]; [done|].
  change (String c z +:+ ".backup") with (String c (z +:+ ".backup")).
  cbn [endswith]. rewrite IH, orb_false_r.
  simpl. destruct (Ascii.eqb c "y"); [|done]. by destruct z.
Qed.

(** A backup path is never a candidate for the target. *)
Lemma mcp_file_in_not_backup (path f : string) :
  mcp_file_in path ≠ f +:+ ".backup".
Proof.
  intros H. destruct (mcp_file_in_form path) as [z Hz].
  assert (endswith (mcp_file_in path) "y" = true) as Hy.
  { rewrite Hz. change "mcp.py" with ("mcp.p" +:+ "y").
    rewrite <- app_assoc_str. apply endswith_app. }
  by rewrite H, endswith_backup in Hy.
Qed.

Lemma backup_path_ne (f : string) : f ≠ f +:+ ".backup".
Proof.
  intros H. apply (f_equal String.length) in H.
  rewrite length_app_str in H. simpl in H. lia.
Qed.

End paths.

(** * The two literals *)

Section literals.

Import Py.

Lemma count_bad_replaced (c : string) :
  str_count (str_replace c bad_literal corrected_literal) bad_literal = 0.
Proof. by apply count_replace_from. Qed.

Lemma contains_bad_replaced (c : string) :
  contains (str_replace c bad_literal corrected_literal) bad_literal = false.
Proof. by apply contains_replace_from. Qed.

Lemma contains_around_corrected (u v : string) :
  contains (u +:+ corrected_literal +:+ v) bad_literal
  = contains u bad_literal || contains v bad_literal.
Proof. by apply contains_around_new. Qed.

Lemma count_corrected_replaced (c : string) :
  str_count (str_replace c bad_literal corrected_literal) corrected_literal
  = str_count c corrected_literal + str_count c bad_literal.
Proof. by apply (count_other_replace_from _ _ _ _ _ ""). Qed.

Lemma count_counted_replaced (c : string) :
  str_count (str_replace c bad_literal corrected_literal) counted_literal
  = str_count c counted_literal + str_count c bad_literal.
Proof. by apply (count_other_replace_from _ _ _ _ _ " "). Qed.

Example str_count_examples :
  str_count "a.server.params.get(x); server.params.get(y)" bad_literal = 2 /\
  str_count "aaaa" "aa" = 2 /\ str_count "aaa" "aa" = 1 /\ str_count "abc" "" = 4.
Proof. repeat split. Qed.

Example str_replace_examples :
  str_replace "a.server.params.get(x); server.params.get(y)"
    bad_literal corrected_literal
    = "a.getattr(server.params, x); getattr(server.params, y)" /\
  str_replace "aaa" "aa" "b" = "ba" /\ str_replace "abc" "" "-" = "-a-b-c-".
Proof. repeat split. Qed.

Example os_path_examples :
  PosixPath.join "/a/" ["b"; "/c"; "d"] = "/c/d" /\
  PosixPath.join "" ["b"] = "b" /\
  mcp_file_in "/sp" = "/sp/cai/repl/commands/mcp.py" /\
  mcp_file_in "/sp/" = "/sp/cai/repl/commands/mcp.py" /\
  PosixPath.dirname "/sp/cai/repl/commands/mcp.py" = "/sp/cai/repl/commands" /\
  PosixPath.basename "/sp/cai/repl/commands/mcp.py" = "mcp.py" /\
  PosixPath.dirname "/a//b" = "/a" /\ PosixPath.dirname "//a" = "//" /\
  PosixPath.dirname "a" = "".
Proof. repeat split. Qed.

End literals.

(** * Running the script *)

Section run.

Lemma bind_run {A B : Type} (m : M A) (f : A -> M B) (w : world) :
  (m ≫= f) w =
  match m w with
  | (Return a, w') => f a w'
  | (Raise e, w') => (Raise e, w')
  end.
Proof. done. Qed.

(** The locator only looks: it returns without raising and leaves the world
    as it was; its answer is the first candidate that exists. *)
Lemma look_for_mcp_file_spec (paths : list string) (w : world) :
  exists r, look_for_mcp_file paths w = (Return r, w) /\
    match r with
    | Some f =>
        exists before d after,
          paths = before ++ d :: after /\ f = mcp_file_in d /\
          is_Some (fs w !! f) /\
          Forall (fun d' => fs w !! mcp_file_in d' = None) before
    | None => Forall (fun d => fs w !! mcp_file_in d = None) paths
    end.
Proof.
  induction paths as [|d paths IH].
  - exists None. by split.
  - cbn [look_for_mcp_file]. rewrite bind_run. unfold os_path_exists at 1.
    destruct (fs w !! mcp_file_in d) as [n|] eqn:Hd.
    + rewrite bool_decide_eq_true_2 by eauto.
      exists (Some (mcp_file_in d)). split; [done|].
      exists [], d, paths. rewrite Hd. by eauto.
    + rewrite bool_decide_eq_false_2 by (by intros [? ?]).
      destruct IH as [r [Hr Hspec]]. exists r. split; [done|].
      destruct r as [f|].
      * destruct Hspec as (before & d' & after & -> & -> & Hf & Hbefore).
        exists (d :: before), d', after. by repeat split; [|constructor].
      * by constructor.
Qed.

Lemma find_cai_mcp_file_inv (env : environment) (w w' : world) (f : string) :
  find_cai_mcp_file env w = (Return (Some f), w') ->
  w' = w /\ truthy (Some f) = true /\ is_Some (fs w !! f) /\
  (forall g, f ≠ g +:+ ".backup").
Proof.
  intros H. destruct (look_for_mcp_file_spec (search_paths env) w) as [r [Hr Hspec]].
  unfold find_cai_mcp_file in H. rewrite Hr in H. injection H as -> ->.
  destruct Hspec as (before & d & after & _ & -> & Hf & _).
  repeat split; [|done|].
  - pose proof (mcp_file_in_nonempty d). by destruct (mcp_file_in d).
  - intros g. apply mcp_file_in_not_backup.
Qed.

(** The locator's answer depends on the file system only through which
    candidates exist. *)
Lemma look_for_mcp_file_ext (paths : list string) (w1 w2 : world) :
  (forall d, is_Some (fs w1 !! mcp_file_in d) <-> is_Some (fs w2 !! mcp_file_in d)) ->
  (look_for_mcp_file paths w1).1 = (look_for_mcp_file paths w2).1.
Proof.
  intros Hex. induction paths as [|d paths IH]; [done|].
  cbn [look_for_mcp_file]. rewrite !bind_run. unfold os_path_exists.
  rewrite (bool_decide_ext _ _ (Hex d)).
  by destruct (bool_decide _).
Qed.

Lemma create_backup_old (f : string) (w : world) :
  is_Some (fs w !! (f +:+ ".backup")) -> create_backup f w = (Return tt, w).
Proof.
  intros H. unfold create_backup. rewrite bind_run. unfold os_path_exists.
  by rewrite bool_decide_eq_true_2.
Qed.

Lemma create_backup_new (f c : string) (w : world) :
  fs w !! (f +:+ ".backup") = None -> fs w !! f = Some (File c) ->
  create_backup f w =
    (Return tt,
     World (<[f +:+ ".backup" := File c]> (fs w))
           (log w ++ [Printed "💾 Creating backup..."; Wrote (f +:+ ".backup") c;
                      Printed ("✅ Backup created: " +:+ f +:+ ".backup")])).
Proof.
  intros Hb Hf. unfold create_backup. rewrite bind_run. unfold os_path_exists.
  rewrite bool_decide_eq_false_2 by (rewrite Hb; by intros [? ?]).
  cbv [mbind M_bind mret M_ret print read_file write_file]. cbn [fs log].
  rewrite Hf. cbn [fs log]. rewrite Hb. cbn [fs log]. by rewrite <- !app_assoc.
Qed.

Lemma create_backup_Dir (f : string) (w : world) :
  fs w !! (f +:+ ".backup") = None -> fs w !! f = Some Dir ->
  create_backup f w =
    (Raise (IsADirectoryError f),
     World (fs w) (log w ++ [Printed "💾 Creating backup..."])).
Proof.
  intros Hb Hf. unfold create_backup. rewrite bind_run. unfold os_path_exists.
  rewrite bool_decide_eq_false_2 by (rewrite Hb; by intros [? ?]).
  cbv [mbind M_bind mret M_ret print read_file write_file]. cbn [fs log].
  by rewrite Hf.
Qed.

Lemma report_fix_clean (before_count : nat) (fixed_content : string) (w : world) :
  Py.str_count fixed_content bad_literal = 0 ->
  report_fix before_count fixed_content w =
    (Return true,
     World (fs w)
       (log w ++
        [Printed "✅ Fix applied successfully!";
         Printed ("   • Before: " +:+ pretty before_count +:+ " server.params.get() calls");
         Printed "   • After: 0 server.params.get() calls";
         Printed ("   • Added: " +:+ pretty (Py.str_count fixed_content counted_literal)
                  +:+ " getattr(server.params, ...) calls");
         Printed "🎉 All server.params.get() calls have been fixed!";
         Printed (nl +:+ "📋 Next steps:");
         Printed "   1. Start CAI: cai";
         Printed "   2. Test the fix: /mcp add pentest-tools redteam_agent";
         Printed "   3. Switch to agent: /agent redteam_agent";
         Printed "   4. Start pentesting!"])).
Proof.
  intros H. unfold report_fix. fold bad_literal counted_literal. rewrite H.
  cbv [mbind M_bind mret M_ret print]. cbn [fs log Nat.eqb].
  by rewrite <- !app_assoc.
Qed.

Lemma report_fix_remaining (before_count : nat) (fixed_content : string) (w : world) :
  Py.str_count fixed_content bad_literal ≠ 0 ->
  report_fix before_count fixed_content w =
    (Return false,
     World (fs w)
       (log w ++
        [Printed "✅ Fix applied successfully!";
         Printed ("   • Before: " +:+ pretty before_count +:+ " server.params.get() calls");
         Printed ("   • After: " +:+ pretty (Py.str_count fixed_content bad_literal)
                  +:+ " server.params.get() calls");
         Printed ("   • Added: " +:+ pretty (Py.str_count fixed_content counted_literal)
                  +:+ " getattr(server.params, ...) calls");
         Printed ("⚠️  Warning: " +:+ pretty (Py.str_count fixed_content bad_literal)
                  +:+ " server.params.get() calls still remain")])).
Proof.
  intros H. unfold report_fix. fold bad_literal counted_literal.
  apply Nat.eqb_neq in H.
  cbv [mbind M_bind mret M_ret print]. cbn [fs log]. rewrite H.
  cbn [fs log]. by rewrite <- !app_assoc.
Qed.

Lemma print_run (line : string) (w : world) :
  print line w = (Return tt, World (fs w) (log w ++ [Printed line])).
Proof. done. Qed.

Lemma ret_run {A : Type} (a : A) (w : world) : (mret a : M A) w = (Return a, w).
Proof. done. Qed.

Ltac run_print :=
  rewrite bind_run, print_run; cbn beta iota; cbn [fs log].

Lemma fix_cai_mcp_bug_not_found (env : environment) (w : world) :
  find_cai_mcp_file env w = (Return None, w) ->
  fix_cai_mcp_bug env w =
    (Return false,
     World (fs w)
       (log w ++
        [Printed "🛡️  CAI MCP BUG FIX SCRIPT";
         Printed (Py.str_mul "=" 40);
         Printed "❌ CAI installation not found!";
         Printed "   Please ensure CAI is installed in your current Python environment:";
         Printed "   pip install cai-framework"])).
Proof.
  intros Hfind. unfold fix_cai_mcp_bug. rewrite bind_run, Hfind.
  do 2 run_print. cbn [truthy negb]. do 3 run_print.
  rewrite ret_run. by rewrite <- !app_assoc.
Qed.

(** What the run does once the target is located and is a regular file. *)
Lemma fix_cai_mcp_bug_found (env : environment) (w : world) (f c : string) :
  find_cai_mcp_file env w = (Return (Some f), w) ->
  fs w !! f = Some (File c) ->
  let bk := f +:+ ".backup" in
  let n := Py.str_count c bad_literal in
  let c' := Py.str_replace c bad_literal corrected_literal in
  let backed_up := match fs w !! bk with Some _ => fs w | None => <[bk := File c]> (fs w) end in
  fix_cai_mcp_bug env w =
    (Return true,
     World (if n =? 0 then backed_up else <[f := File c']> backed_up)
       (log w ++
        [Printed "🛡️  CAI MCP BUG FIX SCRIPT";
         Printed (Py.str_mul "=" 40);
         Printed ("✅ Found CAI installation: " +:+ PosixPath.dirname f);
         Printed ("Target file: " +:+ PosixPath.basename f)] ++
        match fs w !! bk with
         | Some _ => []
         | None => [Printed "💾 Creating backup..."; Wrote bk c;
                    Printed ("✅ Backup created: " +:+ bk)]
         end ++
        [Printed "🔍 Reading and analyzing file...";
         Printed ("Found " +:+ pretty n +:+ " server.params.get() calls to fix")] ++
        (if n =? 0
         then [Printed "✅ No fixes needed - file appears to already be fixed"]
         else
           [Printed "🔧 Applying fixes..."; Wrote f c';
            Printed "✅ Fix applied successfully!";
            Printed ("   • Before: " +:+ pretty n +:+ " server.params.get() calls");
            Printed "   • After: 0 server.params.get() calls";
            Printed ("   • Added: " +:+ pretty (Py.str_count c' counted_literal)
                     +:+ " getattr(server.params, ...) calls");
            Printed "🎉 All server.params.get() calls have been fixed!";
            Printed (nl +:+ "📋 Next steps:");
            Printed "   1. Start CAI: cai";
            Printed "   2. Test the fix: /mcp add pentest-tools redteam_agent";
            Printed "   3. Switch to agent: /agent redteam_agent";
            Printed "   4. Start pentesting!"]))).
Proof.
  intros Hfind Hf bk n c' backed_up. subst bk.
  destruct (find_cai_mcp_file_inv _ _ _ _ Hfind) as (_ & Htruthy & _ & Hbk).
  unfold fix_cai_mcp_bug. rewrite bind_run, Hfind. do 2 run_print.
  rewrite Htruthy. cbn [negb from_option]. unfold id. do 2 run_print.
  rewrite bind_run.
  set (w1 := World (fs w) _).
  assert (exists w2, create_backup f w1 = (Return tt, w2) /\
            fs w2 = backed_up /\
            log w2 = log w1 ++
              match fs w !! (f +:+ ".backup") with
              | Some _ => []
              | None => [Printed "💾 Creating backup..."; Wrote (f +:+ ".backup") c;
                         Printed ("✅ Backup created: " +:+ f +:+ ".backup")]
              end) as (w2 & -> & Hfs2 & Hlog2).
  { subst backed_up. destruct (fs w !! (f +:+ ".backup")) as [b|] eqn:Hb.
    - exists w1. rewrite create_backup_old by (unfold w1; cbn [fs]; rewrite Hb; eauto).
      by rewrite app_nil_r.
    - eexists. rewrite (create_backup_new f c) by done. done. }
  assert (fs w2 !! f = Some (File c)) as Hf2.
  { rewrite Hfs2. subst backed_up. destruct (fs w !! (f +:+ ".backup")); [done|].
    rewrite lookup_insert_ne; [done | symmetry; apply backup_path_ne]. }
  cbn beta iota. run_print.
  rewrite bind_run. unfold read_file at 1. cbn [fs]. rewrite Hf2. cbn beta iota.
  fold bad_literal corrected_literal. fold n. run_print.
  destruct (n =? 0) eqn:Hn.
  - run_print. rewrite ret_run, Hfs2, Hlog2. subst w1. cbn [log].
    by rewrite <- !app_assoc.
  - run_print. fold c'.
    rewrite bind_run. unfold write_file at 1. cbn [fs log]. rewrite Hf2.
    cbn beta iota. rewrite bind_run. unfold read_file at 1. cbn [fs].
    rewrite lookup_insert_eq. cbn beta iota.
    rewrite report_fix_clean by apply count_bad_replaced.
    cbn [fs log]. rewrite Hfs2, Hlog2. subst w1. cbn [log].
    by rewrite <- !app_assoc.
Qed.

Lemma find_cai_mcp_file_total (env : environment) (w : world) :
  exists r, find_cai_mcp_file env w = (Return r, w).
Proof.
  destruct (look_for_mcp_file_spec (search_paths env) w) as [r [Hr _]]. by exists r.
Qed.

Lemma find_cai_mcp_file_none (env : environment) (w : world) :
  Forall (fun d => fs w !! mcp_file_in d = None) (search_paths env) ->
  find_cai_mcp_file env w = (Return None, w).
Proof.
  intros Hnone.
  destruct (look_for_mcp_file_spec (search_paths env) w) as [[f|] [Hr Hspec]]; [|done].
  destruct Hspec as (before & d & after & Hpaths & -> & [n Hn] & _).
  rewrite Hpaths in Hnone. apply Forall_app in Hnone as [_ Hnone].
  apply Forall_cons in Hnone as [Hd _]. congruence.
Qed.

(** A located path that is a directory: opening it raises, before anything
    is written. *)
Lemma fix_cai_mcp_bug_found_Dir (env : environment) (w : world) (f : string) :
  find_cai_mcp_file env w = (Return (Some f), w) ->
  fs w !! f = Some Dir ->
  exists w', fix_cai_mcp_bug env w = (Raise (IsADirectoryError f), w') /\
    fs w' = fs w /\ writes (log w') = writes (log w).
Proof.
  intros Hfind Hf.
  destruct (find_cai_mcp_file_inv _ _ _ _ Hfind) as (_ & Htruthy & _ & Hbk).
  unfold fix_cai_mcp_bug. rewrite bind_run, Hfind. do 2 run_print.
  rewrite Htruthy. cbn [negb from_option]. unfold id. do 2 run_print.
  rewrite bind_run. set (w1 := World (fs w) _).
  destruct (fs w !! (f +:+ ".backup")) as [b|] eqn:Hb.
  - rewrite create_backup_old by (unfold w1; cbn [fs]; rewrite Hb; eauto).
    cbn beta iota. run_print. rewrite bind_run. unfold read_file at 1.
    unfold w1. cbn [fs]. rewrite Hf. eexists. split; [done|].
    cbn [fs log]. split; [done|]. unfold writes. by rewrite !omap_app, !app_nil_r.
  - rewrite create_backup_Dir by done. eexists. split; [done|].
    unfold w1. cbn [fs log]. split; [done|].
    unfold writes. by rewrite !omap_app, !app_nil_r.
Qed.

Lemma main_run (env : environment) (w : world) :
  main env w =
  match fix_cai_mcp_bug env w with
  | (Return true, w') =>
      (Return tt,
       World (fs w')
         (log w' ++
          [Printed (nl +:+ Py.str_mul "=" 50);
           Printed "🎯 SUMMARY";
           Printed (Py.str_mul "=" 50);
           Printed "The script fixed a CAI bug where server.params.get() method calls";
           Printed "were failing because StdioServerParameters objects don't have a";
           Printed "get() method. All calls were replaced with getattr() which works correctly.";
           Printed (nl +:+ "Bug Details:");
           Printed "- Error: 'StdioServerParameters' object has no attribute 'get'";
           Printed "- Affects: /mcp add command when adding MCP tools to agents";
           Printed "- Fix: Replace server.params.get() with getattr(server.params, ...)";
           Printed (Py.str_mul "=" 50)]))
  | (Return false, w') =>
      (Return tt,
       World (fs w')
         (log w' ++
          [Printed (nl +:+ "❌ Fix failed - please check the error messages above")]))
  | (Raise e, w') => (Raise e, w')
  end.
Proof.
  unfold main. rewrite bind_run.
  destruct (fix_cai_mcp_bug env w) as [[[|]|e] w']; [| |done].
  - do 10 run_print. rewrite print_run. cbn [fs log]. by rewrite <- !app_assoc.
  - by rewrite print_run.
Qed.

Lemma writes_app (l1 l2 : list event) : writes (l1 ++ l2) = writes l1 ++ writes l2.
Proof. apply omap_app. Qed.

Lemma writes_nil : writes [] = [].
Proof. done. Qed.

Lemma writes_cons_Printed (line : string) (l : list event) :
  writes (Printed line :: l) = writes l.
Proof. done. Qed.

Lemma writes_cons_Wrote (path content : string) (l : list event) :
  writes (Wrote path content :: l) = (path, content) :: writes l.
Proof. done. Qed.

Lemma stdout_app (l1 l2 : list event) : stdout (l1 ++ l2) = stdout l1 ++ stdout l2.
Proof. apply omap_app. Qed.

(** A text without the pattern is left as it is. *)
Lemma replace_from_absent (old new s : string) :
  Py.contains s old = false -> Py.replace_from old new 0 s = s.
Proof.
  induction s as [|c s IH]; [done|]; intros H.
  cbn [Py.contains] in H. apply orb_false_iff in H as [Hhd Htl].
  rewrite replace_from_miss by done. by rewrite IH.
Qed.

Lemma str_replace_no_bad (c : string) :
  Py.str_count c bad_literal = 0 ->
  Py.str_replace c bad_literal corrected_literal = c.
Proof.
  intros H. apply replace_from_absent. by apply count_zero_contains.
Qed.

(** A run that does not touch which candidates exist leaves the locator's
    answer as it was.  Backup paths are never candidates. *)
Lemma find_cai_mcp_file_stable
    (env : environment) (w w' : world) (r : option string) :
  find_cai_mcp_file env w = (Return r, w) ->
  (forall p, (forall g, p ≠ g +:+ ".backup") ->
             is_Some (fs w' !! p) <-> is_Some (fs w !! p)) ->
  find_cai_mcp_file env w' = (Return r, w').
Proof.
  intros Hfind Hsame. destruct (find_cai_mcp_file_total env w') as [r' Hr].
  rewrite Hr. f_equal.
  assert ((find_cai_mcp_file env w').1 = (find_cai_mcp_file env w).1) as H.
  { apply look_for_mcp_file_ext. intros d. apply Hsame.
    intros g. apply mcp_file_in_not_backup. }
  rewrite Hr, Hfind in H. cbn in H. congruence.
Qed.

(** The second of two runs, when the first one replaced something. *)
Lemma second_run_after_replacement
    (env : environment) (w : world) (f c : string) :
  find_cai_mcp_file env w = (Return (Some f), w) ->
  fs w !! f = Some (File c) ->
  Py.str_count c bad_literal ≠ 0 ->
  exists w1 w2,
    fix_cai_mcp_bug env w = (Return true, w1) /\
    fs w1 !! f = Some (File (Py.str_replace c bad_literal corrected_literal)) /\
    fix_cai_mcp_bug env w1 = (Return true, w2) /\
    fs w2 = fs w1 /\
    log w2 = log w1 ++
      [Printed "🛡️  CAI MCP BUG FIX SCRIPT";
       Printed (Py.str_mul "=" 40);
       Printed ("✅ Found CAI installation: " +:+ PosixPath.dirname f);
       Printed ("Target file: " +:+ PosixPath.basename f);
       Printed "🔍 Reading and analyzing file...";
       Printed "Found 0 server.params.get() calls to fix";
       Printed "✅ No fixes needed - file appears to already be fixed"].
Proof.
  intros Hfind Hf Hn.
  pose proof (backup_path_ne f) as Hne.
  destruct (find_cai_mcp_file_inv _ _ _ _ Hfind) as (_ & _ & _ & Hcand).
  pose proof (fix_cai_mcp_bug_found env w f c Hfind Hf) as Hrun1.
  cbv zeta in Hrun1. apply Nat.eqb_neq in Hn. rewrite Hn in Hrun1.
  set (c' := Py.str_replace c bad_literal corrected_literal) in *.
  set (backed_up := match fs w !! (f +:+ ".backup") with
                    | Some _ => fs w
                    | None => <[f +:+ ".backup" := File c]> (fs w)
                    end) in *.
  set (w1 := World (<[f := File c']> backed_up) _) in Hrun1.
  assert (fs w1 !! f = Some (File c')) as Hf1 by apply lookup_insert_eq.
  assert (is_Some (fs w1 !! (f +:+ ".backup"))) as [kept Hb1].
  { unfold w1; cbn [fs]. rewrite lookup_insert_ne by done. subst backed_up.
    destruct (fs w !! (f +:+ ".backup")) eqn:Hb; [by rewrite Hb|].
    rewrite lookup_insert_eq. eauto. }
  assert (find_cai_mcp_file env w1 = (Return (Some f), w1)) as Hfind1.
  { apply (find_cai_mcp_file_stable env w); [done|]. intros p Hp.
    unfold w1; cbn [fs]. destruct (decide (p = f)) as [->|Hpf].
    - rewrite lookup_insert_eq, Hf. split; eauto.
    - rewrite lookup_insert_ne by done. subst backed_up.
      destruct (fs w !! (f +:+ ".backup")); [done|].
      rewrite lookup_insert_ne; [done | apply not_eq_sym, Hp]. }
  pose proof (fix_cai_mcp_bug_found env w1 f c' Hfind1 Hf1) as Hrun2.
  cbv zeta in Hrun2. rewrite Hb1 in Hrun2.
  assert (Py.str_count c' bad_literal = 0) as Hzero by apply count_bad_replaced.
  rewrite Hzero in Hrun2.
  exists w1. eexists. split; [exact Hrun1|]. split; [exact Hf1|].
  split; [exact Hrun2|]. cbn [fs log Nat.eqb]. split; reflexivity.
Qed.

(** The second of two runs, when the first one found nothing to replace. *)
Lemma second_run_after_no_fix
    (env : environment) (w : world) (f c : string) :
  find_cai_mcp_file env w = (Return (Some f), w) ->
  fs w !! f = Some (File c) ->
  Py.str_count c bad_literal = 0 ->
  exists w1 w2,
    fix_cai_mcp_bug env w = (Return true, w1) /\
    fix_cai_mcp_bug env w1 = (Return true, w2) /\
    fs w2 = fs w1.
Proof.
  intros Hfind Hf Hn.
  pose proof (backup_path_ne f) as Hne.
  pose proof (fix_cai_mcp_bug_found env w f c Hfind Hf) as Hrun1.
  cbv zeta in Hrun1. rewrite Hn in Hrun1. cbn [Nat.eqb] in Hrun1.
  set (backed_up := match fs w !! (f +:+ ".backup") with
                    | Some _ => fs w
                    | None => <[f +:+ ".backup" := File c]> (fs w)
                    end) in *.
  set (w1 := World backed_up _) in Hrun1.
  assert (fs w1 !! f = Some (File c)) as Hf1.
  { unfold w1; cbn [fs]. subst backed_up.
    destruct (fs w !! (f +:+ ".backup")); [done|]. by rewrite lookup_insert_ne. }
  assert (is_Some (fs w1 !! (f +:+ ".backup"))) as [kept Hb1].
  { unfold w1; cbn [fs]. subst backed_up.
    destruct (fs w !! (f +:+ ".backup")) eqn:Hb; [by rewrite Hb|].
    rewrite lookup_insert_eq. eauto. }
  assert (find_cai_mcp_file env w1 = (Return (Some f), w1)) as Hfind1.
  { apply (find_cai_mcp_file_stable env w); [done|]. intros p Hp.
    unfold w1; cbn [fs]. subst backed_up.
    destruct (fs w !! (f +:+ ".backup")); [done|].
    rewrite lookup_insert_ne; [done | apply not_eq_sym, Hp]. }
  pose proof (fix_cai_mcp_bug_found env w1 f c Hfind1 Hf1) as Hrun2.
  cbv zeta in Hrun2. rewrite Hb1, Hn in Hrun2.
  exists w1. eexists. split; [exact Hrun1|]. split; [exact Hrun2|]. done.
Qed.

(** Whatever the first run met, a second run leaves the files as the first
    one left them. *)
Lemma fix_cai_mcp_bug_fs_idempotent (env : environment) (w : world) :
  fs (fix_cai_mcp_bug env (fix_cai_mcp_bug env w).2).2
  = fs (fix_cai_mcp_bug env w).2.
Proof.
  destruct (find_cai_mcp_file_total env w) as [[f|] Hfind].
  - destruct (find_cai_mcp_file_inv _ _ _ _ Hfind) as (_ & _ & [[c|] Hf] & _).
    + destruct (decide (Py.str_count c bad_literal = 0)) as [Hn|Hn].
      * destruct (second_run_after_no_fix env w f c Hfind Hf Hn)
          as (w1 & w2 & -> & H2 & Hfs).
        cbn [snd]. by rewrite H2.
      * destruct (second_run_after_replacement env w f c Hfind Hf Hn)
          as (w1 & w2 & -> & _ & H2 & Hfs & _).
        cbn [snd]. by rewrite H2.
    + destruct (fix_cai_mcp_bug_found_Dir env w f Hfind Hf) as (w1 & -> & Hfs1 & _).
      cbn [snd].
      assert (find_cai_mcp_file env w1 = (Return (Some f), w1)) as Hfind1.
      { apply (find_cai_mcp_file_stable env w); [done|]. intros p _. by rewrite Hfs1. }
      assert (fs w1 !! f = Some Dir) as Hf1 by (by rewrite Hfs1).
      destruct (fix_cai_mcp_bug_found_Dir env w1 f Hfind1 Hf1) as (w2 & -> & Hfs2 & _).
      done.
  - rewrite (fix_cai_mcp_bug_not_found env w Hfind). cbn [snd].
    set (w1 := World (fs w) _).
    assert (find_cai_mcp_file env w1 = (Return None, w1)) as Hfind1.
    { by apply (find_cai_mcp_file_stable env w). }
    by rewrite (fix_cai_mcp_bug_not_found env w1 Hfind1).
Qed.

End run.

(** * The claims *)

(** C4. The locator's candidates are the system site-package directories,
    then the user site-package directory, then, only when a virtual
    environment is active (an old-style [real_prefix] is set, or
    [base_prefix] is set and differs from [prefix]), that environment's
    site-package directory.  The locator returns without raising and
    without changing the world; its result is the target path below the
    first candidate, in that order, at which the target exists, and [None]
    when the target exists below no candidate. *)
Theorem find_cai_mcp_file_first_existing (env : environment) (w : world) :
  search_paths env =
    getsitepackages env ++ [getusersitepackages env] ++
    (if venv_active (sys env) then [venv_site_packages (sys env)] else []) /\
  (venv_active (sys env) = true <->
     is_Some (real_prefix (sys env)) \/
     exists base, base_prefix (sys env) = Some base /\ base ≠ prefix (sys env)) /\
  exists r, find_cai_mcp_file env w = (Return r, w) /\
    match r with
    | Some f =>
        exists before d after,
          search_paths env = before ++ d :: after /\ f = mcp_file_in d /\
          is_Some (fs w !! f) /\
          Forall (fun d' => fs w !! mcp_file_in d' = None) before
    | None => Forall (fun d => fs w !! mcp_file_in d = None) (search_paths env)
    end.
Proof.
  split; [|split].
  - unfold search_paths. destruct (venv_active (sys env)); simpl.
    + by rewrite <- app_assoc.
    + done.
  - unfold venv_active. rewrite orb_true_iff, bool_decide_eq_true.
    destruct (base_prefix (sys env)) as [base|].
    + rewrite bool_decide_eq_true. split; intros [?|H]; eauto.
      destruct H as (? & [= <-] & ?). by right.
    + split; intros [?|H]; eauto; [done|]. by destruct H as (? & ? & ?).
  - apply look_for_mcp_file_spec.
Qed.

Example find_prefers_system_over_user_over_venv :
  let env := Environment (Sys None (Some "/usr") "/venv" 3 11) ["/sys"] "/user" in
  let at_ d := mcp_file_in d in
  search_paths env = ["/sys"; "/user"; "/venv/lib/python3.11/site-packages"] /\
  (find_cai_mcp_file env
     (World {[ at_ "/venv/lib/python3.11/site-packages" := File "v";
               at_ "/user" := File "u"; at_ "/sys" := File "s" ]} [])).1
    = Return (Some "/sys/cai/repl/commands/mcp.py") /\
  (find_cai_mcp_file env
     (World {[ at_ "/venv/lib/python3.11/site-packages" := File "v";
               at_ "/user" := Dir ]} [])).1
    = Return (Some "/user/cai/repl/commands/mcp.py") /\
  (find_cai_mcp_file env
     (World {[ at_ "/venv/lib/python3.11/site-packages" := File "v" ]} [])).1
    = Return (Some "/venv/lib/python3.11/site-packages/cai/repl/commands/mcp.py") /\
  (find_cai_mcp_file (Environment (Sys None (Some "/venv") "/venv" 3 11) ["/sys"] "/user")
     (World {[ at_ "/venv/lib/python3.11/site-packages" := File "v" ]} [])).1
    = Return None.
Proof. vm_compute. done. Qed.

(** C1. Replacing every occurrence of the bad literal in a content [C]
    leaves no occurrence of it and adds one occurrence of the corrected
    literal for each one replaced, so the result has at least as many
    corrected occurrences as [C] had bad ones.  When the target is found as
    a regular file with content [C], the run returns [True] and the file
    then holds that rewritten content: for a [C] with exactly three bad
    occurrences, three more corrected occurrences than before (three, if
    [C] had none) and no bad one. *)
Theorem patch_replaces_every_occurrence :
  (forall C,
     let C' := Py.str_replace C bad_literal corrected_literal in
     Py.str_count C' bad_literal = 0 /\
     Py.str_count C bad_literal <= Py.str_count C' corrected_literal /\
     Py.str_count C' corrected_literal
       = Py.str_count C corrected_literal + Py.str_count C bad_literal) /\
  (forall env w f C,
     find_cai_mcp_file env w = (Return (Some f), w) ->
     fs w !! f = Some (File C) ->
     exists w',
       fix_cai_mcp_bug env w = (Return true, w') /\
       fs w' !! f = Some (File (Py.str_replace C bad_literal corrected_literal))).
Proof.
  split.
  - intros C C'. pose proof (count_corrected_replaced C) as Hgood. fold C' in Hgood.
    split; [apply count_bad_replaced|]. split; [lia | done].
  - intros env w f C Hfind Hf.
    eexists. split; [by apply (fix_cai_mcp_bug_found env w f C)|].
    cbn [fs].
    assert ((match fs w !! (f +:+ ".backup") with
             | Some _ => fs w
             | None => <[f +:+ ".backup" := File C]> (fs w)
             end) !! f = Some (File C)) as Hkept.
    { destruct (fs w !! (f +:+ ".backup")); [done|].
      rewrite lookup_insert_ne; [done | symmetry; apply backup_path_ne]. }
    destruct (Py.str_count C bad_literal =? 0) eqn:Hn.
    + apply Nat.eqb_eq in Hn. by rewrite str_replace_no_bad.
    + apply lookup_insert_eq.
Qed.

Lemma patch_replaces_every_occurrence_witness :
  let w := sample_world three_calls in
  find_cai_mcp_file sample_env w = (Return (Some sample_target), w) /\
  fs w !! sample_target = Some (File three_calls) /\
  Py.str_count three_calls bad_literal = 3 /\
  Py.str_count three_fixed corrected_literal = 3 /\
  Py.str_count three_fixed bad_literal = 0 /\
  exists w',
    fix_cai_mcp_bug sample_env w = (Return true, w') /\
    fs w' !! sample_target = Some (File three_fixed).
Proof.
  intros w.
  assert (find_cai_mcp_file sample_env w = (Return (Some sample_target), w)) as Hfind
    by (vm_compute; reflexivity).
  assert (fs w !! sample_target = Some (File three_calls)) as Hf
    by (vm_compute; reflexivity).
  split; [exact Hfind|]. split; [exact Hf|].
  split; [reflexivity|]. split; [reflexivity|]. split; [reflexivity|].
  exact (proj2 patch_replaces_every_occurrence sample_env w sample_target three_calls
           Hfind Hf).
Defined.

Example corrected_count_adds_to_earlier_ones :
  let C := "getattr(server.params, 'a'); server.params.get('b'); server.params.get('c'); server.params.get('d')" in
  Py.str_count C bad_literal = 3 /\
  Py.str_count (Py.str_replace C bad_literal corrected_literal) corrected_literal = 4.
Proof. split; reflexivity. Qed.

(** C2. If the re-read content still has occurrences of the bad literal,
    the verification prints its report, which opens with the unconditional
    "Fix applied successfully!" line and closes with the warning that names
    the remaining count; it raises nothing, writes nothing, and returns
    normally.  The value it returns is [False]: that is how the flag tells
    the entry point that the fix is incomplete. *)
Theorem incomplete_fix_is_warned
    (before_count : nat) (fixed_content : string) (w : world) :
  Py.str_count fixed_content bad_literal ≠ 0 ->
  exists w', report_fix before_count fixed_content w = (Return false, w') /\
    fs w' = fs w /\
    writes (log w') = writes (log w) /\
    stdout (log w') = stdout (log w) ++
      ["✅ Fix applied successfully!";
       "   • Before: " +:+ pretty before_count +:+ " server.params.get() calls";
       "   • After: " +:+ pretty (Py.str_count fixed_content bad_literal)
         +:+ " server.params.get() calls";
       "   • Added: " +:+ pretty (Py.str_count fixed_content counted_literal)
         +:+ " getattr(server.params, ...) calls";
       "⚠️  Warning: " +:+ pretty (Py.str_count fixed_content bad_literal)
         +:+ " server.params.get() calls still remain"].
Proof.
  intros H. eexists. split; [by apply report_fix_remaining|].
  cbn [fs log]. rewrite writes_app, stdout_app. split; [done|].
  split; [apply app_nil_r | done].
Qed.

Lemma incomplete_fix_is_warned_witness :
  Py.str_count "x = server.params.get('k')" bad_literal ≠ 0 /\
  exists w', report_fix 2 "x = server.params.get('k')" (World ∅ []) = (Return false, w') /\
    fs w' = ∅ /\
    writes (log w') = [] /\
    stdout (log w') =
      ["✅ Fix applied successfully!";
       "   • Before: 2 server.params.get() calls";
       "   • After: 1 server.params.get() calls";
       "   • Added: 0 getattr(server.params, ...) calls";
       "⚠️  Warning: 1 server.params.get() calls still remain"].
Proof.
  assert (Py.str_count "x = server.params.get('k')" bad_literal ≠ 0) as H
    by (vm_compute; lia).
  split; [exact H|].
  exact (incomplete_fix_is_warned 2 "x = server.params.get('k')" (World ∅ []) H).
Defined.

(** C6. When the target exists below no candidate directory, the run
    returns [False] after printing the "not found" message; it writes
    nothing, so no backup is made and the file system is as it was. *)
Theorem not_found_changes_nothing (env : environment) (w : world) :
  Forall (fun d => fs w !! mcp_file_in d = None) (search_paths env) ->
  exists w', fix_cai_mcp_bug env w = (Return false, w') /\
    fs w' = fs w /\
    writes (log w') = writes (log w) /\
    stdout (log w') = stdout (log w) ++
      ["🛡️  CAI MCP BUG FIX SCRIPT"; Py.str_mul "=" 40;
       "❌ CAI installation not found!";
       "   Please ensure CAI is installed in your current Python environment:";
       "   pip install cai-framework"].
Proof.
  intros Hnone. apply find_cai_mcp_file_none in Hnone.
  eexists. split; [by apply fix_cai_mcp_bug_not_found|].
  cbn [fs log]. rewrite writes_app, stdout_app. split; [done|].
  split; [apply app_nil_r | done].
Qed.

Lemma not_found_changes_nothing_witness :
  let w := World {[ "/elsewhere/cai/repl/commands/mcp.py" := File three_calls ]} [] in
  Forall (fun d => fs w !! mcp_file_in d = None) (search_paths sample_env) /\
  exists w', fix_cai_mcp_bug sample_env w = (Return false, w') /\
    fs w' = fs w /\
    writes (log w') = writes (log w) /\
    stdout (log w') = stdout (log w) ++
      ["🛡️  CAI MCP BUG FIX SCRIPT"; Py.str_mul "=" 40;
       "❌ CAI installation not found!";
       "   Please ensure CAI is installed in your current Python environment:";
       "   pip install cai-framework"].
Proof.
  intros w.
  assert (Forall (fun d => fs w !! mcp_file_in d = None) (search_paths sample_env)) as H
    by (repeat constructor).
  split; [exact H|]. exact (not_found_changes_nothing sample_env w H).
Defined.

(** C3. On every run that finds the target as a regular file with content
    [c]: a backup that already exists, whatever it holds, is still there
    unchanged after the run and was not written; when none exists, the run
    writes one, exactly once, with content [c], the target's content before
    the patch. *)
Theorem backup_kept_or_created
    (env : environment) (w : world) (f c : string) :
  find_cai_mcp_file env w = (Return (Some f), w) ->
  fs w !! f = Some (File c) ->
  exists w' ws, fix_cai_mcp_bug env w = (Return true, w') /\
    writes (log w') = writes (log w) ++ ws /\
    match fs w !! (f +:+ ".backup") with
    | Some kept =>
        fs w' !! (f +:+ ".backup") = Some kept /\
        forall x, (f +:+ ".backup", x) ∉ ws
    | None =>
        fs w' !! (f +:+ ".backup") = Some (File c) /\
        filter (fun p => p.1 = f +:+ ".backup") ws = [(f +:+ ".backup", c)]
    end.
Proof.
  intros Hfind Hf.
  pose proof (backup_path_ne f) as Hne.
  eexists. eexists. split; [by apply (fix_cai_mcp_bug_found env w f c)|].
  cbn [fs log]. rewrite !writes_app. split.
  { reflexivity. }
  destruct (fs w !! (f +:+ ".backup")) as [kept|] eqn:Hb;
    destruct (Py.str_count c bad_literal =? 0).
  - split; [done|]. intros x. cbn [writes omap list_omap app]. apply not_elem_of_nil.
  - split; [by rewrite lookup_insert_ne|]. intros x. cbn [writes omap list_omap app].
    rewrite list_elem_of_singleton. congruence.
  - split; [by rewrite lookup_insert_eq|]. cbn [writes omap list_omap app].
    by rewrite filter_cons_True.
  - split; [by rewrite lookup_insert_ne, lookup_insert_eq|]. cbn [writes omap list_omap app].
    rewrite filter_cons_True by done. by rewrite filter_cons_False, filter_nil.
Qed.

Lemma backup_kept_or_created_witness :
  let bk := sample_target +:+ ".backup" in
  let w := World {[ sample_target := File three_calls; bk := File "first snapshot" ]} [] in
  find_cai_mcp_file sample_env w = (Return (Some sample_target), w) /\
  fs w !! sample_target = Some (File three_calls) /\
  exists w' ws, fix_cai_mcp_bug sample_env w = (Return true, w') /\
    writes (log w') = writes (log w) ++ ws /\
    fs w' !! bk = Some (File "first snapshot") /\
    forall x, (bk, x) ∉ ws.
Proof.
  intros bk w.
  assert (find_cai_mcp_file sample_env w = (Return (Some sample_target), w)) as Hfind
    by (vm_compute; reflexivity).
  assert (fs w !! sample_target = Some (File three_calls)) as Hf
    by (vm_compute; reflexivity).
  split; [exact Hfind|]. split; [exact Hf|].
  exact (backup_kept_or_created sample_env w sample_target three_calls Hfind Hf).
Defined.

Example backup_created_when_missing :
  let w' := (fix_cai_mcp_bug sample_env (sample_world three_calls)).2 in
  fs w' !! (sample_target +:+ ".backup") = Some (File three_calls) /\
  fs w' !! sample_target = Some (File three_fixed) /\
  writes (log w') = [(sample_target +:+ ".backup", three_calls); (sample_target, three_fixed)].
Proof. vm_compute. done. Qed.

(** C7. When the target is found as a regular file whose content has no
    occurrence of the bad literal, the run returns [True] and never writes
    the target; a backup that exists is not written again, so nothing at
    all is written and the file system is as it was.  (Only when no backup
    exists yet is one written; that is all the run writes.) *)
Theorem already_fixed_is_not_rewritten
    (env : environment) (w : world) (f c : string) :
  find_cai_mcp_file env w = (Return (Some f), w) ->
  fs w !! f = Some (File c) ->
  Py.str_count c bad_literal = 0 ->
  exists w', fix_cai_mcp_bug env w = (Return true, w') /\
    fs w' !! f = Some (File c) /\
    (forall x, (f, x) ∉ drop (length (writes (log w))) (writes (log w'))) /\
    match fs w !! (f +:+ ".backup") with
    | Some _ => fs w' = fs w /\ writes (log w') = writes (log w)
    | None =>
        fs w' = <[f +:+ ".backup" := File c]> (fs w) /\
        writes (log w') = writes (log w) ++ [(f +:+ ".backup", c)]
    end.
Proof.
  intros Hfind Hf Hn.
  pose proof (backup_path_ne f) as Hne.
  eexists. split; [by apply (fix_cai_mcp_bug_found env w f c)|].
  cbn [fs log]. rewrite Hn. cbn [Nat.eqb]. rewrite !writes_app, drop_app_length.
  destruct (fs w !! (f +:+ ".backup")) as [kept|] eqn:Hb;
    rewrite ?writes_cons_Printed, ?writes_cons_Wrote, ?writes_nil; cbn [app].
  - split; [done|]. split; [intros x; apply not_elem_of_nil|].
    split; [done | apply app_nil_r].
  - split; [by rewrite lookup_insert_ne|]. split; [|done].
    intros x. rewrite list_elem_of_singleton. congruence.
Qed.

Lemma already_fixed_is_not_rewritten_witness :
  let bk := sample_target +:+ ".backup" in
  let w := World {[ sample_target := File three_fixed; bk := File three_calls ]} [] in
  find_cai_mcp_file sample_env w = (Return (Some sample_target), w) /\
  fs w !! sample_target = Some (File three_fixed) /\
  Py.str_count three_fixed bad_literal = 0 /\
  exists w', fix_cai_mcp_bug sample_env w = (Return true, w') /\
    fs w' !! sample_target = Some (File three_fixed) /\
    (forall x, (sample_target, x) ∉ drop (length (writes (log w))) (writes (log w'))) /\
    fs w' = fs w /\ writes (log w') = writes (log w).
Proof.
  intros bk w.
  assert (find_cai_mcp_file sample_env w = (Return (Some sample_target), w)) as Hfind
    by (vm_compute; reflexivity).
  assert (fs w !! sample_target = Some (File three_fixed)) as Hf
    by (vm_compute; reflexivity).
  assert (Py.str_count three_fixed bad_literal = 0) as Hn by reflexivity.
  split; [exact Hfind|]. split; [exact Hf|]. split; [exact Hn|].
  exact (already_fixed_is_not_rewritten sample_env w sample_target three_fixed Hfind Hf Hn).
Defined.

(** C10. Whenever the target is found as a regular file with content [c]
    and no backup exists, the run writes the backup, with content [c],
    before it prints the occurrence count it has just computed, whatever
    that count is, zero included; the run succeeds and the backup is there
    at its end. *)
Theorem backup_precedes_count
    (env : environment) (w : world) (f c : string) :
  find_cai_mcp_file env w = (Return (Some f), w) ->
  fs w !! f = Some (File c) ->
  fs w !! (f +:+ ".backup") = None ->
  exists w' rest, fix_cai_mcp_bug env w = (Return true, w') /\
    log w' = log w ++
      [Printed "🛡️  CAI MCP BUG FIX SCRIPT";
       Printed (Py.str_mul "=" 40);
       Printed ("✅ Found CAI installation: " +:+ PosixPath.dirname f);
       Printed ("Target file: " +:+ PosixPath.basename f);
       Printed "💾 Creating backup...";
       Wrote (f +:+ ".backup") c;
       Printed ("✅ Backup created: " +:+ f +:+ ".backup");
       Printed "🔍 Reading and analyzing file...";
       Printed ("Found " +:+ pretty (Py.str_count c bad_literal)
                +:+ " server.params.get() calls to fix")] ++ rest /\
    fs w' !! (f +:+ ".backup") = Some (File c).
Proof.
  intros Hfind Hf Hb.
  pose proof (backup_path_ne f) as Hne.
  eexists. eexists. split; [by apply (fix_cai_mcp_bug_found env w f c)|].
  cbn [fs log]. rewrite Hb. split; [reflexivity|].
  destruct (Py.str_count c bad_literal =? 0).
  - apply lookup_insert_eq.
  - by rewrite lookup_insert_ne, lookup_insert_eq.
Qed.

Lemma backup_precedes_count_witness :
  let w := sample_world three_fixed in
  find_cai_mcp_file sample_env w = (Return (Some sample_target), w) /\
  fs w !! sample_target = Some (File three_fixed) /\
  fs w !! (sample_target +:+ ".backup") = None /\
  Py.str_count three_fixed bad_literal = 0 /\
  exists w' rest, fix_cai_mcp_bug sample_env w = (Return true, w') /\
    log w' = log w ++
      [Printed "🛡️  CAI MCP BUG FIX SCRIPT";
       Printed (Py.str_mul "=" 40);
       Printed ("✅ Found CAI installation: " +:+ PosixPath.dirname sample_target);
       Printed ("Target file: " +:+ PosixPath.basename sample_target);
       Printed "💾 Creating backup...";
       Wrote (sample_target +:+ ".backup") three_fixed;
       Printed ("✅ Backup created: " +:+ sample_target +:+ ".backup");
       Printed "🔍 Reading and analyzing file...";
       Printed "Found 0 server.params.get() calls to fix"] ++ rest /\
    fs w' !! (sample_target +:+ ".backup") = Some (File three_fixed).
Proof.
  intros w.
  assert (find_cai_mcp_file sample_env w = (Return (Some sample_target), w)) as Hfind
    by (vm_compute; reflexivity).
  assert (fs w !! sample_target = Some (File three_fixed)) as Hf
    by (vm_compute; reflexivity).
  assert (fs w !! (sample_target +:+ ".backup") = None) as Hb
    by (vm_compute; reflexivity).
  split; [exact Hfind|]. split; [exact Hf|]. split; [exact Hb|].
  split; [reflexivity|].
  exact (backup_precedes_count sample_env w sample_target three_fixed Hfind Hf Hb).
Defined.

(** C5. Running the script twice leaves the files as running it once
    does.  In particular, after a first run that performed the
    replacement, a second run on the world the first one left finds the
    same target, counts 0 occurrences of the bad literal, says that no fix
    is needed and returns [True]; it prints and does nothing else, so the
    file system after the second run is the one after the first. *)
Theorem second_run_changes_nothing :
  (forall env w,
     fs (fix_cai_mcp_bug env (fix_cai_mcp_bug env w).2).2
     = fs (fix_cai_mcp_bug env w).2) /\
  (forall env w f c,
     find_cai_mcp_file env w = (Return (Some f), w) ->
     fs w !! f = Some (File c) ->
     Py.str_count c bad_literal ≠ 0 ->
     exists w1 w2,
       fix_cai_mcp_bug env w = (Return true, w1) /\
       fs w1 !! f = Some (File (Py.str_replace c bad_literal corrected_literal)) /\
       fix_cai_mcp_bug env w1 = (Return true, w2) /\
       fs w2 = fs w1 /\
       log w2 = log w1 ++
         [Printed "🛡️  CAI MCP BUG FIX SCRIPT";
          Printed (Py.str_mul "=" 40);
          Printed ("✅ Found CAI installation: " +:+ PosixPath.dirname f);
          Printed ("Target file: " +:+ PosixPath.basename f);
          Printed "🔍 Reading and analyzing file...";
          Printed "Found 0 server.params.get() calls to fix";
          Printed "✅ No fixes needed - file appears to already be fixed"]).
Proof.
  split; [apply fix_cai_mcp_bug_fs_idempotent | apply second_run_after_replacement].
Qed.

Lemma second_run_changes_nothing_witness :
  let w := sample_world three_calls in
  find_cai_mcp_file sample_env w = (Return (Some sample_target), w) /\
  fs w !! sample_target = Some (File three_calls) /\
  Py.str_count three_calls bad_literal ≠ 0 /\
  exists w1 w2,
    fix_cai_mcp_bug sample_env w = (Return true, w1) /\
    fs w1 !! sample_target = Some (File three_fixed) /\
    fix_cai_mcp_bug sample_env w1 = (Return true, w2) /\
    fs w2 = fs w1 /\
    log w2 = log w1 ++
      [Printed "🛡️  CAI MCP BUG FIX SCRIPT";
       Printed (Py.str_mul "=" 40);
       Printed ("✅ Found CAI installation: " +:+ PosixPath.dirname sample_target);
       Printed ("Target file: " +:+ PosixPath.basename sample_target);
       Printed "🔍 Reading and analyzing file...";
       Printed "Found 0 server.params.get() calls to fix";
       Printed "✅ No fixes needed - file appears to already be fixed"].
Proof.
  intros w.
  assert (find_cai_mcp_file sample_env w = (Return (Some sample_target), w)) as Hfind
    by (vm_compute; reflexivity).
  assert (fs w !! sample_target = Some (File three_calls)) as Hf
    by (vm_compute; reflexivity).
  assert (Py.str_count three_calls bad_literal ≠ 0) as Hn by (vm_compute; lia).
  split; [exact Hfind|]. split; [exact Hf|]. split; [exact Hn|].
  exact (proj2 second_run_changes_nothing sample_env w sample_target three_calls Hfind Hf Hn).
Defined.

(** C8. [main] turns no outcome of the flag into an exit status: whether
    [fix_cai_mcp_bug] returns [True] or [False], [main] prints its closing
    message (the failure line when the flag is [False]) and returns, and
    the process ends with status 0.  Only an exception raised by the run,
    which [main] does not catch, ends the process otherwise. *)
Theorem main_exits_zero_on_logical_failure
    (env : environment) (w w1 : world) (o : outcome bool) :
  fix_cai_mcp_bug env w = (o, w1) ->
  match o with
  | Return success =>
      exists lines, lines ≠ [] /\
        main env w = (Return tt, World (fs w1) (log w1 ++ map Printed lines)) /\
        run_script env w = (0%Z, World (fs w1) (log w1 ++ map Printed lines)) /\
        (success = false ->
         lines = [nl +:+ "❌ Fix failed - please check the error messages above"])
  | Raise e =>
      main env w = (Raise e, w1) /\ run_script env w = (1%Z, w1)
  end.
Proof.
  intros Hrun. unfold run_script. rewrite main_run, Hrun.
  destruct o as [[|]|e]; [| |done].
  - exists [nl +:+ Py.str_mul "=" 50;
            "🎯 SUMMARY";
            Py.str_mul "=" 50;
            "The script fixed a CAI bug where server.params.get() method calls";
            "were failing because StdioServerParameters objects don't have a";
            "get() method. All calls were replaced with getattr() which works correctly.";
            nl +:+ "Bug Details:";
            "- Error: 'StdioServerParameters' object has no attribute 'get'";
            "- Affects: /mcp add command when adding MCP tools to agents";
            "- Fix: Replace server.params.get() with getattr(server.params, ...)";
            Py.str_mul "=" 50].
    done.
  - by exists [nl +:+ "❌ Fix failed - please check the error messages above"].
Qed.

Lemma main_exits_zero_on_logical_failure_witness :
  exists w1,
    fix_cai_mcp_bug sample_env (World ∅ []) = (Return false, w1) /\
    exists lines, lines ≠ [] /\
      main sample_env (World ∅ []) = (Return tt, World (fs w1) (log w1 ++ map Printed lines)) /\
      run_script sample_env (World ∅ []) = (0%Z, World (fs w1) (log w1 ++ map Printed lines)) /\
      (false = false ->
       lines = [nl +:+ "❌ Fix failed - please check the error messages above"]).
Proof.
  eexists. 
  assert (fix_cai_mcp_bug sample_env (World ∅ []) = (Return false, (fix_cai_mcp_bug sample_env (World ∅ [])).2)) as Hrun
    by (vm_compute; reflexivity).
  split; [exact Hrun|].
  exact (main_exits_zero_on_logical_failure sample_env (World ∅ []) _ (Return false) Hrun).
Defined.

Example main_exit_statuses :
  (run_script sample_env (World ∅ [])).1 = 0%Z /\
  (run_script sample_env (sample_world three_calls)).1 = 0%Z /\
  (run_script sample_env (World {[ sample_target := Dir ]} [])).1 = 1%Z /\
  (main sample_env (World {[ sample_target := Dir ]} [])).1
    = Raise (IsADirectoryError sample_target).
Proof. vm_compute. done. Qed.

(** C9. The corrected literal does not contain the bad one, and where it
    is put between two texts the bad literal occurs only where it occurs
    in one of the two; so a text in which every occurrence is replaced has
    none left.  On the modelled file system, where reading a path returns
    what was last written to it, [fix_cai_mcp_bug] therefore never takes
    the warning branch: it returns [False] only when the target was not
    found, in which case nothing was written. *)
Theorem warning_branch_unreachable :
  Py.contains corrected_literal bad_literal = false /\
  (forall u v,
     Py.contains (u +:+ corrected_literal +:+ v) bad_literal
     = Py.contains u bad_literal || Py.contains v bad_literal) /\
  (forall c,
     Py.contains (Py.str_replace c bad_literal corrected_literal) bad_literal = false /\
     Py.str_count (Py.str_replace c bad_literal corrected_literal) bad_literal = 0) /\
  (forall env w w',
     fix_cai_mcp_bug env w = (Return false, w') ->
     find_cai_mcp_file env w = (Return None, w) /\
     fs w' = fs w /\ writes (log w') = writes (log w)).
Proof.
  split; [reflexivity|]. split; [apply contains_around_corrected|].
  split; [intros c; split; [apply contains_bad_replaced | apply count_bad_replaced]|].
  intros env w w' Hrun.
  destruct (find_cai_mcp_file_total env w) as [[f|] Hfind].
  - destruct (find_cai_mcp_file_inv _ _ _ _ Hfind) as (_ & _ & [[c|] Hf] & _).
    + rewrite (fix_cai_mcp_bug_found env w f c Hfind Hf) in Hrun. discriminate.
    + destruct (fix_cai_mcp_bug_found_Dir env w f Hfind Hf) as (w2 & Hrun2 & _).
      rewrite Hrun2 in Hrun. discriminate.
  - rewrite (fix_cai_mcp_bug_not_found env w Hfind) in Hrun.
    injection Hrun as <-. cbn [fs log]. rewrite writes_app.
    split; [done|]. split; [done | apply app_nil_r].
Qed.

Lemma warning_branch_unreachable_witness :
  exists w',
    fix_cai_mcp_bug sample_env (World ∅ []) = (Return false, w') /\
    find_cai_mcp_file sample_env (World ∅ []) = (Return None, World ∅ []) /\
    fs w' = ∅ /\ writes (log w') = [].
Proof.
  eexists.
  assert (fix_cai_mcp_bug sample_env (World ∅ []) = (Return false, (fix_cai_mcp_bug sample_env (World ∅ [])).2)) as Hrun
    by (vm_compute; reflexivity).
  split; [exact Hrun|].
  exact (proj2 (proj2 (proj2 warning_branch_unreachable)) sample_env (World ∅ []) _ Hrun).
Defined.

(** * Further properties *)

(** ** The replacement as a function on text *)

Section replace_more.

Import Py.

(** Each replaced occurrence trades the length of [old] for that of [new]. *)
Lemma length_replace_from (old new s : string) :
  old ≠ "" ->
  String.length (replace_from old new 0 s) + count_from old 0 s * String.length old
  = String.length s + count_from old 0 s * String.length new.
Proof.
  intros Hold. remember (String.length s) as n eqn:Hn. revert s Hn.
  induction n as [n IH] using lt_wf_ind; intros s ->.
  destruct s as [|c s]; [done|].
  destruct (startswith (String c s) old) eqn:Hhd.
  - apply startswith_inv in Hhd as [x Hx]. rewrite Hx.
    assert (String.length x < String.length (String c s)) as Hlt.
    { rewrite Hx, length_app_str. destruct old; [done|]. simpl. lia. }
    pose proof (IH _ Hlt x eq_refl) as IHx.
    rewrite replace_from_match, count_from_match, !length_app_str by done. lia.
  - rewrite replace_from_miss, count_from_miss by done.
    assert (String.length s < String.length (String c s)) as Hlt by (simpl; lia).
    pose proof (IH _ Hlt s eq_refl) as IHs. simpl. lia.
Qed.

Variables (o : ascii) (old' : string) (a : ascii) (new' : string).
Local Abbreviation old := (String o old').
Local Abbreviation new := (String a new').

Hypothesis old_new : tails_clash old new = true.
Hypothesis new_border : tails_clash new' new = true.

(** Where [new] did not occur before, replacing it back by [old] undoes the
    replacement. *)
Lemma replace_from_undo (s : string) :
  contains s new = false ->
  replace_from new old 0 (replace_from old new 0 s) = s.
Proof.
  remember (String.length s) as n eqn:Hn. revert s Hn.
  induction n as [n IH] using lt_wf_ind; intros s -> Hs.
  destruct s as [|c s]; [done|].
  destruct (startswith (String c s) old) eqn:Hhd.
  - apply startswith_inv in Hhd as [x Hx]. rewrite Hx in Hs |- *.
    assert (String.length x < String.length (String c s)) as Hlt.
    { rewrite Hx, length_app_str. simpl. lia. }
    rewrite contains_tails_clash in Hs by done.
    rewrite (replace_from_match old), (replace_from_match new) by done.
    by rewrite (IH _ Hlt x eq_refl Hs).
  - cbn [contains] in Hs. apply orb_false_iff in Hs as [Hnew Hs].
    rewrite (replace_from_miss old) by done.
    assert (String.length s < String.length (String c s)) as Hlt by (simpl; lia).
    rewrite replace_from_miss.
    + by rewrite (IH _ Hlt s eq_refl Hs).
    + rewrite startswith_cons in Hnew |- *.
      destruct (bool_decide (a = c)); [simpl in *|done].
      destruct (startswith (replace_from old new 0 s) new') eqn:H; [|done].
      apply startswith_replace_inv in H; [congruence | done].
Qed.

End replace_more.

(** X1. The count that [fix_cai_mcp_bug] tests against zero is zero exactly
    when the bad literal occurs nowhere in the content, and exactly when
    the replacement would leave the content as it is; so whenever the run
    writes the target, it writes a content that differs from the one it
    read.  Replacing a second time changes nothing more. *)
Theorem zero_count_iff_nothing_to_replace (c : string) :
  (Py.str_count c bad_literal = 0 <-> Py.contains c bad_literal = false) /\
  (Py.str_count c bad_literal = 0 <->
     Py.str_replace c bad_literal corrected_literal = c) /\
  Py.str_replace (Py.str_replace c bad_literal corrected_literal)
    bad_literal corrected_literal
  = Py.str_replace c bad_literal corrected_literal.
Proof.
  split; [|split].
  - split; [by apply count_zero_contains | apply contains_false_count].
  - split; [apply str_replace_no_bad|].
    intros <-. apply count_bad_replaced.
  - apply str_replace_no_bad, count_bad_replaced.
Qed.

(** X2. The rewritten content is longer than the one read by five
    characters for each occurrence replaced: the corrected literal has 23
    characters, the bad one 18. *)
Theorem replaced_content_length (c : string) :
  String.length (Py.str_replace c bad_literal corrected_literal)
  = String.length c + 5 * Py.str_count c bad_literal.
Proof.
  pose proof (length_replace_from bad_literal corrected_literal c) as H.
  unfold Py.str_count, Py.str_replace, bad_literal, corrected_literal in *.
  cbn [String.length] in H. specialize (H ltac:(done)). lia.
Qed.

(** X3. A content that has no occurrence of the corrected literal can be
    recovered from its rewritten form without the backup: replacing the
    corrected literal by the bad one gives it back. *)
Theorem replacement_can_be_undone (c : string) :
  Py.contains c corrected_literal = false ->
  Py.str_replace (Py.str_replace c bad_literal corrected_literal)
    corrected_literal bad_literal = c.
Proof. intros H. by apply replace_from_undo. Qed.

Lemma replacement_can_be_undone_witness :
  Py.contains three_calls corrected_literal = false /\
  Py.str_replace three_calls bad_literal corrected_literal = three_fixed /\
  Py.str_replace (Py.str_replace three_calls bad_literal corrected_literal)
    corrected_literal bad_literal = three_calls.
Proof.
  assert (Py.contains three_calls corrected_literal = false) as H by reflexivity.
  split; [exact H|]. split; [reflexivity|].
  exact (replacement_can_be_undone three_calls H).
Defined.

Example replacement_not_undone_with_earlier_getattr :
  let c := "getattr(server.params, 'a'); server.params.get('b')" in
  Py.str_replace (Py.str_replace c bad_literal corrected_literal)
    corrected_literal bad_literal
  = "server.params.get('a'); server.params.get('b')".
Proof. reflexivity. Qed.

(** ** What a run does to the file system *)

Section run_more.

(** The file system a run leaves, whatever it met. *)
Lemma fix_cai_mcp_bug_fs (env : environment) (w : world) :
  fs (fix_cai_mcp_bug env w).2 = fs w \/
  exists d f c,
    d ∈ search_paths env /\ f = mcp_file_in d /\
    find_cai_mcp_file env w = (Return (Some f), w) /\
    fs w !! f = Some (File c) /\
    fs (fix_cai_mcp_bug env w).2 =
      let backed_up :=
        match fs w !! (f +:+ ".backup") with
        | Some _ => fs w
        | None => <[f +:+ ".backup" := File c]> (fs w)
        end in
      if Py.str_count c bad_literal =? 0 then backed_up
      else <[f := File (Py.str_replace c bad_literal corrected_literal)]> backed_up.
Proof.
  destruct (look_for_mcp_file_spec (search_paths env) w) as [[f|] [Hfind Hspec]].
  - destruct Hspec as (before & d & after & Hpaths & -> & [[c|] Hf] & _).
    + right. exists d, (mcp_file_in d), c.
      split; [rewrite Hpaths; apply elem_of_app; right; apply list_elem_of_here|].
      split; [done|]. split; [done|]. split; [done|].
      by rewrite (fix_cai_mcp_bug_found env w _ c Hfind Hf).
    + left. by destruct (fix_cai_mcp_bug_found_Dir env w _ Hfind Hf) as (w' & -> & ? & _).
  - left. by rewrite (fix_cai_mcp_bug_not_found env w Hfind).
Qed.

End run_more.


(** X5. A run leaves every path as it was, except the target it located
    and that target's backup path: a path that is neither a candidate
    target nor a candidate's backup is untouched. *)
Theorem other_paths_untouched (env : environment) (w : world) (p : string) :
  (forall d, d ∈ search_paths env ->
             p ≠ mcp_file_in d /\ p ≠ mcp_file_in d +:+ ".backup") ->
  fs (fix_cai_mcp_bug env w).2 !! p = fs w !! p.
Proof.
  intros Hp.
  destruct (fix_cai_mcp_bug_fs env w) as [-> | (d & f & c & Hd & -> & _ & _ & ->)];
    [done|].
  destruct (Hp d Hd) as [Hne Hnb]. cbv zeta.
  destruct (Py.str_count c bad_literal =? 0);
    [|rewrite lookup_insert_ne by done];
    (destruct (fs w !! (mcp_file_in d +:+ ".backup")); [done|]);
    by rewrite lookup_insert_ne.
Qed.

Lemma other_paths_untouched_witness :
  let w := World {[ sample_target := File three_calls;
                    "/venv/lib/python3.11/site-packages/cai/__init__.py" := File "server.params.get(" ]} [] in
  let p := "/venv/lib/python3.11/site-packages/cai/__init__.py" in
  (forall d, d ∈ search_paths sample_env ->
             p ≠ mcp_file_in d /\ p ≠ mcp_file_in d +:+ ".backup") /\
  fs (fix_cai_mcp_bug sample_env w).2 !! p = Some (File "server.params.get(").
Proof.
  intros w p.
  assert (forall d, d ∈ search_paths sample_env ->
             p ≠ mcp_file_in d /\ p ≠ mcp_file_in d +:+ ".backup") as H.
  { intros d Hd.
    assert (search_paths sample_env =
              ["/usr/lib/python3/dist-packages";
               "/home/u/.local/lib/python3.11/site-packages";
               "/venv/lib/python3.11/site-packages"]) as E by reflexivity.
    rewrite E, !elem_of_cons, elem_of_nil in Hd.
    destruct Hd as [->|[->|[->|[]]]]; split; vm_compute; discriminate. }
  split; [exact H|]. exact (other_paths_untouched sample_env w p H).
Defined.

(** X6. A run removes nothing: every path that existed before the run
    exists after it, and a directory is still a directory. *)
Theorem nothing_is_removed (env : environment) (w : world) (p : string) (n : node) :
  fs w !! p = Some n ->
  exists n', fs (fix_cai_mcp_bug env w).2 !! p = Some n' /\
             (n = Dir -> n' = Dir).
Proof.
  intros Hp.
  destruct (fix_cai_mcp_bug_fs env w) as [-> | (d & f & c & _ & _ & _ & Hf & ->)];
    [by exists n|].
  pose proof (backup_path_ne f) as Hne. cbv zeta.
  assert (exists n',
            match fs w !! (f +:+ ".backup") with
            | Some _ => fs w
            | None => <[f +:+ ".backup" := File c]> (fs w)
            end !! p = Some n' /\ (n = Dir -> n' = Dir)) as (n' & Hn' & Hdir).
  { destruct (fs w !! (f +:+ ".backup")) eqn:Hb; [by exists n|].
    exists n. split; [|done]. rewrite lookup_insert_ne; [done | congruence]. }
  destruct (Py.str_count c bad_literal =? 0); [by exists n'|].
  destruct (decide (p = f)) as [->|Hpf].
  - rewrite lookup_insert_eq. eexists. split; [done|]. congruence.
  - rewrite lookup_insert_ne by done. by exists n'.
Qed.

Lemma nothing_is_removed_witness :
  let w := World {[ sample_target := File three_calls;
                    sample_target +:+ ".backup" := Dir ]} [] in
  fs w !! (sample_target +:+ ".backup") = Some Dir /\
  exists n', fs (fix_cai_mcp_bug sample_env w).2 !! (sample_target +:+ ".backup") = Some n' /\
             (Dir = Dir -> n' = Dir).
Proof.
  intros w.
  assert (fs w !! (sample_target +:+ ".backup") = Some Dir) as H
    by (vm_compute; reflexivity).
  split; [exact H|].
  exact (nothing_is_removed sample_env w (sample_target +:+ ".backup") Dir H).
Defined.

(** X7. When the target is found as a regular file, the run writes at most
    twice, in this order: first the backup, with the content read, if no
    backup exists; then the target, with the rewritten content, if the
    content has an occurrence of the bad literal.  The target is thus never
    modified before its backup is in place. *)
Theorem backup_written_before_target
    (env : environment) (w : world) (f c : string) :
  find_cai_mcp_file env w = (Return (Some f), w) ->
  fs w !! f = Some (File c) ->
  writes (log (fix_cai_mcp_bug env w).2) =
    writes (log w) ++
    match fs w !! (f +:+ ".backup") with
    | Some _ => []
    | None => [(f +:+ ".backup", c)]
    end ++
    (if Py.str_count c bad_literal =? 0 then []
     else [(f, Py.str_replace c bad_literal corrected_literal)]).
Proof.
  intros Hfind Hf. rewrite (fix_cai_mcp_bug_found env w f c Hfind Hf).
  cbn [snd log]. rewrite !writes_app. f_equal.
  by destruct (fs w !! (f +:+ ".backup")), (Py.str_count c bad_literal =? 0).
Qed.

Lemma backup_written_before_target_witness :
  let w := sample_world three_calls in
  find_cai_mcp_file sample_env w = (Return (Some sample_target), w) /\
  fs w !! sample_target = Some (File three_calls) /\
  writes (log (fix_cai_mcp_bug sample_env w).2) =
    [(sample_target +:+ ".backup", three_calls); (sample_target, three_fixed)].
Proof.
  intros w.
  assert (find_cai_mcp_file sample_env w = (Return (Some sample_target), w)) as Hfind
    by (vm_compute; reflexivity).
  assert (fs w !! sample_target = Some (File three_calls)) as Hf
    by (vm_compute; reflexivity).
  split; [exact Hfind|]. split; [exact Hf|].
  exact (backup_written_before_target sample_env w sample_target three_calls Hfind Hf).
Defined.

(** X8. The number that the report prints as "Added" is the number of
    occurrences of [getattr(server.params,] in the whole rewritten file:
    the occurrences the file already had plus the ones the run put in.  It
    is the number of replacements only for a file that had none before. *)
Theorem added_counts_earlier_occurrences
    (env : environment) (w : world) (f c : string) :
  find_cai_mcp_file env w = (Return (Some f), w) ->
  fs w !! f = Some (File c) ->
  Py.str_count c bad_literal ≠ 0 ->
  "   • Added: "
    +:+ pretty (Py.str_count c counted_literal + Py.str_count c bad_literal)
    +:+ " getattr(server.params, ...) calls"
  ∈ stdout (log (fix_cai_mcp_bug env w).2).
Proof.
  intros Hfind Hf Hn. rewrite (fix_cai_mcp_bug_found env w f c Hfind Hf).
  apply Nat.eqb_neq in Hn. rewrite Hn, count_counted_replaced.
  cbn [snd log]. rewrite !stdout_app, !elem_of_app. do 4 right.
  unfold stdout. cbn [omap list_omap]. rewrite !elem_of_cons. tauto.
Qed.

Lemma added_counts_earlier_occurrences_witness :
  let c := "getattr(server.params, 'a'); server.params.get('b')" in
  let w := sample_world c in
  find_cai_mcp_file sample_env w = (Return (Some sample_target), w) /\
  fs w !! sample_target = Some (File c) /\
  Py.str_count c bad_literal = 1 /\
  "   • Added: 2 getattr(server.params, ...) calls"
  ∈ stdout (log (fix_cai_mcp_bug sample_env w).2).
Proof.
  intros c w.
  assert (find_cai_mcp_file sample_env w = (Return (Some sample_target), w)) as Hfind
    by (vm_compute; reflexivity).
  assert (fs w !! sample_target = Some (File c)) as Hf by (vm_compute; reflexivity).
  assert (Py.str_count c bad_literal ≠ 0) as Hn by (vm_compute; lia).
  split; [exact Hfind|]. split; [exact Hf|]. split; [reflexivity|].
  exact (added_counts_earlier_occurrences sample_env w sample_target c Hfind Hf Hn).
Defined.

(** X9. A run does not change what the locator answers: called again on
    the world the run left, [find_cai_mcp_file] returns what it returned
    before the run.  The backup the run may have created is never taken
    for the target. *)
Theorem locator_answer_survives_run (env : environment) (w : world) :
  (find_cai_mcp_file env (fix_cai_mcp_bug env w).2).1
  = (find_cai_mcp_file env w).1.
Proof.
  apply look_for_mcp_file_ext. intros d.
  destruct (fix_cai_mcp_bug_fs env w) as [-> | (d' & f & c & _ & _ & _ & Hf & ->)];
    [done|].
  pose proof (mcp_file_in_not_backup d f) as Hnb. cbv zeta.
  assert (is_Some (match fs w !! (f +:+ ".backup") with
                   | Some _ => fs w
                   | None => <[f +:+ ".backup" := File c]> (fs w)
                   end !! mcp_file_in d) <-> is_Some (fs w !! mcp_file_in d)) as Hbu.
  { destruct (fs w !! (f +:+ ".backup")); [done|]. by rewrite lookup_insert_ne. }
  destruct (Py.str_count c bad_literal =? 0); [done|].
  destruct (decide (mcp_file_in d = f)) as [->|Hne].
  - rewrite lookup_insert_eq, Hf. split; eauto.
  - by rewrite lookup_insert_ne.
Qed.

(** X10. [main] prints its summary, which says that all calls were
    replaced, on every successful run; also on a run that found nothing to
    replace and wrote nothing. *)
Theorem summary_printed_without_replacement
    (env : environment) (w : world) (f c : string) :
  find_cai_mcp_file env w = (Return (Some f), w) ->
  fs w !! f = Some (File c) ->
  Py.str_count c bad_literal = 0 ->
  is_Some (fs w !! (f +:+ ".backup")) ->
  exists w', main env w = (Return tt, w') /\
    fs w' = fs w /\
    writes (log w') = writes (log w) /\
    exists before,
      stdout (log w') = before ++
        [nl +:+ Py.str_mul "=" 50;
         "🎯 SUMMARY";
         Py.str_mul "=" 50;
         "The script fixed a CAI bug where server.params.get() method calls";
         "were failing because StdioServerParameters objects don't have a";
         "get() method. All calls were replaced with getattr() which works correctly.";
         nl +:+ "Bug Details:";
         "- Error: 'StdioServerParameters' object has no attribute 'get'";
         "- Affects: /mcp add command when adding MCP tools to agents";
         "- Fix: Replace server.params.get() with getattr(server.params, ...)";
         Py.str_mul "=" 50].
Proof.
  intros Hfind Hf Hn [kept Hb].
  rewrite main_run, (fix_cai_mcp_bug_found env w f c Hfind Hf).
  cbv zeta. rewrite Hn, Hb. cbn [Nat.eqb]. eexists. split; [done|].
  cbn [fs log]. split; [done|]. rewrite !writes_app, !stdout_app.
  split; [by rewrite !app_nil_r|]. eexists. reflexivity.
Qed.

Lemma summary_printed_without_replacement_witness :
  let w := World {[ sample_target := File three_fixed;
                    sample_target +:+ ".backup" := File three_calls ]} [] in
  find_cai_mcp_file sample_env w = (Return (Some sample_target), w) /\
  fs w !! sample_target = Some (File three_fixed) /\
  Py.str_count three_fixed bad_literal = 0 /\
  is_Some (fs w !! (sample_target +:+ ".backup")) /\
  exists w', main sample_env w = (Return tt, w') /\
    fs w' = fs w /\
    writes (log w') = writes (log w) /\
    exists before,
      stdout (log w') = before ++
        [nl +:+ Py.str_mul "=" 50;
         "🎯 SUMMARY";
         Py.str_mul "=" 50;
         "The script fixed a CAI bug where server.params.get() method calls";
         "were failing because StdioServerParameters objects don't have a";
         "get() method. All calls were replaced with getattr() which works correctly.";
         nl +:+ "Bug Details:";
         "- Error: 'StdioServerParameters' object has no attribute 'get'";
         "- Affects: /mcp add command when adding MCP tools to agents";
         "- Fix: Replace server.params.get() with getattr(server.params, ...)";
         Py.str_mul "=" 50].
Proof.
  intros w.
  assert (find_cai_mcp_file sample_env w = (Return (Some sample_target), w)) as Hfind
    by (vm_compute; reflexivity).
  assert (fs w !! sample_target = Some (File three_fixed)) as Hf
    by (vm_compute; reflexivity).
  assert (Py.str_count three_fixed bad_literal = 0) as Hn by reflexivity.
  assert (is_Some (fs w !! (sample_target +:+ ".backup"))) as Hb
    by (vm_compute; eauto).
  split; [exact Hfind|]. split; [exact Hf|]. split; [exact Hn|]. split; [exact Hb|].
  exact (summary_printed_without_replacement sample_env w sample_target three_fixed
           Hfind Hf Hn Hb).
Defined.

(** ** The path of the target *)

Section paths_more.

Import Py.

Lemma endswith_app_sep (z s : string) :
  s ≠ "" -> endswith (z +:+ s) PosixPath.sep = endswith s PosixPath.sep.
Proof.
  intros Hs. induction z as [|c z IH]; [done|].
  change (String c z +:+ s) with (String c (z +:+ s)).
  cbn [endswith]. rewrite IH.
  assert (String.eqb (String c (z +:+ s)) PosixPath.sep = false) as ->; [|done].
  apply String.eqb_neq. intros [= _ H]. by apply (app_nonempty_r z s).
Qed.

(** A component appended to a path that ends in a name. *)
Lemma join_step_after_name (z s b : string) :
  s ≠ "" -> endswith s PosixPath.sep = false -> startswith b PosixPath.sep = false ->
  PosixPath.join_step (z +:+ s) b = z +:+ s +:+ PosixPath.sep +:+ b.
Proof.
  intros Hs Hend Hb. unfold PosixPath.join_step.
  rewrite Hb, endswith_app_sep, Hend by done.
  rewrite bool_decide_eq_false_2 by (by apply app_nonempty_r).
  cbn [orb]. by rewrite !app_assoc_str.
Qed.

Lemma mcp_file_in_closed (d : string) :
  mcp_file_in d =
    (if bool_decide (d = "") || endswith d PosixPath.sep then d
     else d +:+ PosixPath.sep) +:+ "cai/repl/commands/mcp.py".
Proof.
  unfold mcp_file_in, PosixPath.join. cbn [foldl].
  set (x := if bool_decide (d = "") || endswith d PosixPath.sep then d
            else d +:+ PosixPath.sep).
  assert (PosixPath.join_step d "cai" = x +:+ "cai") as ->.
  { unfold PosixPath.join_step, x. change (startswith "cai" PosixPath.sep) with false.
    destruct (_ || _); [done|]. by rewrite app_assoc_str. }
  rewrite (join_step_after_name x "cai" "repl") by done.
  change (x +:+ "cai" +:+ PosixPath.sep +:+ "repl") with (x +:+ "cai/repl").
  rewrite (join_step_after_name x "cai/repl" "commands") by done.
  change (x +:+ "cai/repl" +:+ PosixPath.sep +:+ "commands")
    with (x +:+ "cai/repl/commands").
  by rewrite (join_step_after_name x "cai/repl/commands" "mcp.py").
Qed.

Lemma split_at_last_sep_mcp (z : string) :
  PosixPath.split_at_last_sep (z +:+ "/mcp.py") = (z +:+ "/", "mcp.py").
Proof.
  induction z as [|c z IH]; [done|].
  change (String c z +:+ "/mcp.py") with (String c (z +:+ "/mcp.py")).
  cbn [PosixPath.split_at_last_sep]. rewrite IH. by destruct z.
Qed.

Lemma rstrip_sep_after_name (y : string) (c : ascii) :
  c ≠ "/"%char ->
  PosixPath.rstrip_sep (y +:+ String c "/") = y +:+ String c "".
Proof.
  intros Hc. induction y as [|b y IH].
  - cbn. by apply Ascii.eqb_neq in Hc as ->.
  - change (String b y +:+ String c "/") with (String b (y +:+ String c "/")).
    cbn [PosixPath.rstrip_sep]. rewrite IH. by destruct y.
Qed.

End paths_more.

(** X11. The path tried below a candidate directory [d] is [d], one
    separator unless [d] is empty or already ends in one, and
    [cai/repl/commands/mcp.py].  So a candidate with and without its
    trailing separator name the same target, and an empty candidate names
    the relative path [cai/repl/commands/mcp.py]. *)
Theorem target_path_of_candidate (d : string) :
  mcp_file_in d =
    (if bool_decide (d = "") || Py.endswith d "/" then d else d +:+ "/")
    +:+ "cai/repl/commands/mcp.py".
Proof. apply mcp_file_in_closed. Qed.

(** X12. For the path [f] tried below any candidate directory, the two
    lines a run prints about it name the file [mcp.py] and the directory
    that ends in [cai/repl/commands], and joining the two gives [f] back;
    the backup lies in that same directory under the name
    [mcp.py.backup]. *)
Theorem target_dirname_basename (d : string) :
  let f := mcp_file_in d in
  PosixPath.basename f = "mcp.py" /\
  PosixPath.dirname f =
    (if bool_decide (d = "") || Py.endswith d "/" then d else d +:+ "/")
    +:+ "cai/repl/commands" /\
  PosixPath.join (PosixPath.dirname f) [PosixPath.basename f] = f /\
  PosixPath.join (PosixPath.dirname f) ["mcp.py.backup"] = f +:+ ".backup".
Proof.
  intros f. subst f. rewrite mcp_file_in_closed.
  change (if bool_decide (d = "") || Py.endswith d "/" then d else d +:+ "/")
    with (if bool_decide (d = "") || Py.endswith d PosixPath.sep then d
          else d +:+ PosixPath.sep).
  set (x := if bool_decide (d = "") || Py.endswith d PosixPath.sep then d
            else d +:+ PosixPath.sep).
  assert (PosixPath.split_at_last_sep (x +:+ "cai/repl/commands/mcp.py")
          = (x +:+ "cai/repl/commands/", "mcp.py")) as Hsplit.
  { change (x +:+ "cai/repl/commands/mcp.py")
      with (x +:+ "cai/repl/commands" +:+ "/mcp.py").
    rewrite <- app_assoc_str, split_at_last_sep_mcp. by rewrite app_assoc_str. }
  assert (PosixPath.basename (x +:+ "cai/repl/commands/mcp.py") = "mcp.py") as Hbase
    by (unfold PosixPath.basename; by rewrite Hsplit).
  assert (PosixPath.dirname (x +:+ "cai/repl/commands/mcp.py")
          = x +:+ "cai/repl/commands") as Hdir.
  { unfold PosixPath.dirname. rewrite Hsplit. cbn [fst].
    change (x +:+ "cai/repl/commands/")
      with (x +:+ "cai/repl/command" +:+ String "s" "/").
    rewrite <- app_assoc_str, rstrip_sep_after_name by done.
    rewrite app_assoc_str.
    change ("cai/repl/command" +:+ "s") with ("cai/repl/commands").
    destruct x; done. }
  rewrite Hbase, Hdir. split; [done|]. split; [done|].
  unfold PosixPath.join. cbn [foldl].
  rewrite !(join_step_after_name x "cai/repl/commands") by done.
  split; [done|]. by rewrite app_assoc_str.
Qed.
